(** * lib/hostasyn.c: the asynchronous name-resolve coordinator

    A shallow embedding of [Curl_addrinfo_callback], [Curl_async_resolved]
    and of the resolver-handle life cycle ([Curl_resolver_create],
    [Curl_resolver_create_with_userdata], [Curl_resolver_destroy]), with the
    properties the design document states about them.

    C data is kept as the code has it: pointers and [int]s are integers,
    [NULL] is 0 and [if(p)] tests [p <> 0].  Every store to a field of
    [conn->async] and every call that leaves the file is logged, in program
    order, so that ordering properties can be stated about a run. *)

From stdpp Require Import gmap strings list.
From Stdlib Require Import ZArith Lia.

Local Open Scope Z_scope.

(** ** Constants and scalar types *)

Definition ptr := Z.
Definition NULL : ptr := 0.

(** [if(p)] on a pointer. *)
Definition nonnull (p : ptr) : bool := negb (p =? NULL).

Definition CURLcode := Z.

(** Modelled from the spec: the enumerators of [CURLcode] (curl/curl.h) and
    the macro [CURL_ASYNC_SUCCESS] (hostip.h) are not part of hostasyn.c.
    The spec names a success status and an out-of-memory error kind; the
    values are the ones of curl's public header, where [CURLE_OK] is the
    first enumerator, and [CURL_ASYNC_SUCCESS] expands to the success code
    of the resolver in use, which is 0 for all of them. *)
Definition CURLE_OK : CURLcode := 0.
Definition CURLE_OUT_OF_MEMORY : CURLcode := 27.
Definition CURL_ASYNC_SUCCESS : Z := CURLE_OK.

Definition TRUE : bool := true.
Definition FALSE : bool := false.

(** [if(result)] on a [CURLcode]. *)
Definition is_error (c : CURLcode) : bool := negb (c =? 0).

(** ** The connection and its pending resolution *)

(** [struct Curl_async], the fields hostasyn.c touches. *)
Record Curl_async := mkAsync {
  hostname : string;
  port : Z;
  dns : ptr;          (* struct Curl_dns_entry * *)
  done : bool;
  status : Z
}.

(** [struct connectdata], the fields hostasyn.c touches. *)
Record connectdata := mkConn {
  async : Curl_async;
  dns_entry : ptr     (* struct Curl_dns_entry * *)
}.

Definition with_status (v : Z) (c : connectdata) : connectdata :=
  mkConn (mkAsync (hostname (async c)) (port (async c)) (dns (async c))
                  (done (async c)) v)
         (dns_entry c).

Definition with_dns (v : ptr) (c : connectdata) : connectdata :=
  mkConn (mkAsync (hostname (async c)) (port (async c)) v
                  (done (async c)) (status (async c)))
         (dns_entry c).

Definition with_done (v : bool) (c : connectdata) : connectdata :=
  mkConn (mkAsync (hostname (async c)) (port (async c)) (dns (async c))
                  v (status (async c)))
         (dns_entry c).

Definition with_dns_entry (v : ptr) (c : connectdata) : connectdata :=
  mkConn (async c) v.

(** ** Observable steps of a run *)

Inductive event :=
| Store_status (v : Z)                 (* conn->async.status = v *)
| Store_dns (v : ptr)                  (* conn->async.dns = v *)
| Store_done (v : bool)                (* conn->async.done = v *)
| Store_dns_entry (v : ptr)            (* conn->dns_entry = v *)
| Call_share_lock
| Call_share_unlock
| Call_cache_addr (ai : ptr) (host : string) (prt : Z) (ret : ptr)
| Call_freeaddrinfo (ai : ptr)
| Call_setup_conn (ret : CURLcode)
| Call_disconnect (dead_connection : bool).

(** Classification of events, used to state the claims. *)
Definition is_store_done (e : event) : bool :=
  match e with Store_done _ => true | _ => false end.

Definition is_store_status_or_dns (e : event) : bool :=
  match e with Store_status _ | Store_dns _ => true | _ => false end.

Definition is_store_dns_entry (e : event) : bool :=
  match e with Store_dns_entry _ => true | _ => false end.

Definition is_lock_op (e : event) : bool :=
  match e with Call_share_lock | Call_share_unlock => true | _ => false end.

Definition is_cache_addr (e : event) : bool :=
  match e with Call_cache_addr _ _ _ _ => true | _ => false end.

(** The store call that made a cache entry: [Curl_cache_addr] returned
    non-null. *)
Definition is_cache_entry_created (e : event) : bool :=
  match e with Call_cache_addr _ _ _ r => nonnull r | _ => false end.

Definition is_freeaddrinfo (e : event) : bool :=
  match e with Call_freeaddrinfo _ => true | _ => false end.

Definition is_freeaddrinfo_of (ai : ptr) (e : event) : bool :=
  match e with Call_freeaddrinfo a => a =? ai | _ => false end.

Definition is_setup_conn (e : event) : bool :=
  match e with Call_setup_conn _ => true | _ => false end.

Definition is_disconnect (e : event) : bool :=
  match e with Call_disconnect _ => true | _ => false end.

(** How often, and whether, an event of a kind occurs in a run. *)
Definition count {E} (p : E -> bool) (l : list E) : nat :=
  length (List.filter p l).

Definition occurs {E} (p : E -> bool) (l : list E) : bool :=
  List.existsb p l.

(** ** State and effects

    The state is the connection [data->easy_conn] points to, the share
    pointer [data->share], and the state [X] of the code behind the calls
    that leave the file (DNS cache, share locks, sockets).  A computation
    returns its value, the new state and the events of the run in program
    order. *)

Record world (X : Type) := mkWorld {
  w_conn : connectdata;
  w_share : ptr;        (* data->share *)
  w_ext : X
}.
Arguments mkWorld {X} _ _ _.
Arguments w_conn {X} _.
Arguments w_share {X} _.
Arguments w_ext {X} _.

Definition M (X A : Type) : Type := world X -> A * world X * list event.

Definition ret {X A} (a : A) : M X A := fun w => (a, w, []).

Definition bind {X A B} (m : M X A) (k : A -> M X B) : M X B :=
  fun w =>
    let '(a, w1, l1) := m w in
    let '(b, w2, l2) := k a w1 in
    (b, w2, l1 ++ l2).

Declare Scope run_scope.
Delimit Scope run_scope with run.
Notation "x <- m ;; k" := (bind m (fun x => k))
  (at level 100, m at next level, right associativity) : run_scope.
Notation "m ;; k" := (bind m (fun _ => k))
  (at level 100, right associativity) : run_scope.

Definition value {X A} (r : A * world X * list event) : A := fst (fst r).
Definition final {X A} (r : A * world X * list event) : world X := snd (fst r).
Definition log {X A} (r : A * world X * list event) : list event := snd r.

Section Primitives.
Context {X : Type}.

Definition load {A} (f : connectdata -> A) : M X A :=
  fun w => (f (w_conn w), w, []).

Definition load_share : M X ptr :=
  fun w => (w_share w, w, []).

Definition store (upd : connectdata -> connectdata) (e : event) : M X unit :=
  fun w => (tt, mkWorld (upd (w_conn w)) (w_share w) (w_ext w), [e]).

Definition store_status (v : Z) : M X unit :=
  store (with_status v) (Store_status v).
Definition store_dns (v : ptr) : M X unit :=
  store (with_dns v) (Store_dns v).
Definition store_done (v : bool) : M X unit :=
  store (with_done v) (Store_done v).
Definition store_dns_entry (v : ptr) : M X unit :=
  store (with_dns_entry v) (Store_dns_entry v).

(** A call whose effect stays in the collaborators' state. *)
Definition call {A} (f : X -> A * X) (e : A -> event) : M X A :=
  fun w =>
    let '(a, x) := f (w_ext w) in
    (a, mkWorld (w_conn w) (w_share w) x, [e a]).

Definition call_ (f : X -> X) (e : event) : M X unit :=
  call (fun x => (tt, f x)) (fun _ => e).

Definition when (b : bool) (m : M X unit) : M X unit :=
  if b then m else ret tt.
End Primitives.

(** The parts of what [Curl_setup_conn] hands back: its result, the
    connection as it leaves it, [*protocol_done], and the collaborators'
    state. *)
Definition setup_result {X} (o : CURLcode * connectdata * bool * X) : CURLcode :=
  fst (fst (fst o)).
Definition setup_conn {X} (o : CURLcode * connectdata * bool * X) : connectdata :=
  snd (fst (fst o)).
Definition setup_protocol_done {X} (o : CURLcode * connectdata * bool * X) : bool :=
  snd (fst o).

(** ** The functions of hostasyn.c under CURLRES_ASYNCH *)

Section Coordinator.
Context {X : Type}.

(** The collaborators, specified at their interface only.  The share
    lock, the cache store and the release of an address list act on [X];
    connection setup is handed the connection and may change it and
    [*protocol_done]. *)
Variable Curl_share_lock : X -> X.
Variable Curl_share_unlock : X -> X.
Variable Curl_cache_addr : ptr -> string -> Z -> X -> ptr * X.
Variable Curl_freeaddrinfo : ptr -> X -> X.
Variable Curl_setup_conn :
  connectdata -> bool -> X -> CURLcode * connectdata * bool * X.
Variable Curl_disconnect : connectdata -> bool -> X -> X.

Local Open Scope run_scope.

(** The state of the collaborators in which the store runs, the outcome
    of the store there, and the events of a store and its lock, by the
    share pointer. *)
Definition at_store (w : world X) : X :=
  if nonnull (w_share w) then Curl_share_lock (w_ext w) else w_ext w.

Definition store_call (ai : ptr) (w : world X) : ptr * X :=
  Curl_cache_addr ai (hostname (async (w_conn w))) (port (async (w_conn w)))
    (at_store w).

Definition locked (sh : ptr) (l : list event) : list event :=
  (if nonnull sh then [Call_share_lock] else []) ++ l ++
  (if nonnull sh then [Call_share_unlock] else []).

(** The events of a store of the list [ai] that returned [d]. *)
Definition store_events (ai d : ptr) (w : world X) : list event :=
  locked (w_share w)
    (Call_cache_addr ai (hostname (async (w_conn w)))
       (port (async (w_conn w))) d
     :: (if nonnull d then [] else [Call_freeaddrinfo ai])).

(** The body of [if(CURL_ASYNC_SUCCESS == status) { ... }]: it yields the
    values of the locals [dns] and [result] at line 102. *)
Definition store_resolved (status : Z) (ai : ptr) : M X (ptr * CURLcode) :=
  if CURL_ASYNC_SUCCESS =? status then
    if nonnull ai then
      sh <- load_share ;;
      when (nonnull sh) (call_ Curl_share_lock Call_share_lock) ;;
      h <- load (fun c => hostname (async c)) ;;
      p <- load (fun c => port (async c)) ;;
      d <- call (Curl_cache_addr ai h p) (Call_cache_addr ai h p) ;;
      result <- (if nonnull d then ret CURLE_OK
                 else
                   (* failed to store, cleanup and return error *)
                   call_ (Curl_freeaddrinfo ai) (Call_freeaddrinfo ai) ;;
                   ret CURLE_OUT_OF_MEMORY) ;;
      sh' <- load_share ;;
      when (nonnull sh') (call_ Curl_share_unlock Call_share_unlock) ;;
      ret (d, result)
    else
      ret (NULL, CURLE_OUT_OF_MEMORY)
  else
    ret (NULL, CURLE_OK).

Definition Curl_addrinfo_callback (status : Z) (ai : ptr) : M X CURLcode :=
  store_status status ;;
  dr <- store_resolved status ai ;;
  store_dns (fst dr) ;;
  (* Set async.done TRUE last in this function *)
  store_done TRUE ;;
  ret (snd dr).

(** Lines 124-127: claim the resolved entry. *)
Definition claim_dns : M X unit :=
  d <- load (fun c => dns (async c)) ;;
  if nonnull d then
    store_dns_entry d ;;
    store_dns NULL
  else ret tt.

Definition call_setup_conn (protocol_done : bool) : M X (CURLcode * bool) :=
  fun w =>
    let '(r, c, pd, x) := Curl_setup_conn (w_conn w) protocol_done (w_ext w) in
    ((r, pd), mkWorld c (w_share w) x, [Call_setup_conn r]).

Definition call_disconnect (dead_connection : bool) : M X unit :=
  fun w =>
    (tt,
     mkWorld (w_conn w) (w_share w)
             (Curl_disconnect (w_conn w) dead_connection (w_ext w)),
     [Call_disconnect dead_connection]).

(** Returns the result and the value left in [*protocol_done]. *)
Definition Curl_async_resolved (protocol_done : bool) : M X (CURLcode * bool) :=
  claim_dns ;;
  rp <- call_setup_conn protocol_done ;;
  when (is_error (fst rp))
    (* We're not allowed to return failure with memory left allocated
       in the connectdata struct, free those here *)
    (call_disconnect FALSE) ;;
  ret rp.

End Coordinator.


(** ** The resolver handle

    [struct Curl_resolver_callbacks] is the table of eight function
    pointers a backend supplies.  hostasyn.c calls [init] and [cleanup]
    when it creates and destroys a handle; the six remaining slots are
    copied with the table and kept here as one field.  [B] is the private
    state of the backend, which the two operations may change; the
    [void *] they are given is the handle's [userdata] slot. *)

Record Curl_resolver_callbacks (B O : Type) := mkCallbacks {
  init : ptr -> B -> CURLcode * ptr * B;   (* init(&userdata): code, *userdata *)
  cleanup : ptr -> B -> B;                 (* cleanup(userdata) *)
  other_ops : O
}.
Arguments mkCallbacks {B O} _ _ _.
Arguments init {B O} _ _ _.
Arguments cleanup {B O} _ _.
Arguments other_ops {B O} _.

(** [struct Curl_resolver].  Memory from [calloc] is zero-filled: the
    table of such a handle holds null function pointers, written [None],
    until [memcpy] fills it. *)
Record Curl_resolver (B O : Type) := mkResolver {
  userdata : ptr;
  callbacks : option (Curl_resolver_callbacks B O)
}.
Arguments mkResolver {B O} _ _.
Arguments userdata {B O} _.
Arguments callbacks {B O} _.

(** The parts of what [init] hands back: its result, the value it leaves
    in the [userdata] slot, and the backend's state. *)
Definition init_code {B} (o : CURLcode * ptr * B) : CURLcode := fst (fst o).
Definition init_userdata {B} (o : CURLcode * ptr * B) : ptr := snd (fst o).
Definition init_backend {B} (o : CURLcode * ptr * B) : B := snd o.

Inductive revent :=
| Call_calloc (ret : ptr)
| Call_init (userdata_in : ptr) (ret : CURLcode) (userdata_out : ptr)
| Call_cleanup (ud : ptr)
| Call_free (p : ptr).

Definition is_cleanup (e : revent) : bool :=
  match e with Call_cleanup _ => true | _ => false end.

Definition is_free (e : revent) : bool :=
  match e with Call_free _ => true | _ => false end.

(** The handles that are allocated, and the backend's private state. *)
Record rstate (B O : Type) := mkRstate {
  heap : gmap Z (Curl_resolver B O);
  backend : B
}.
Arguments mkRstate {B O} _ _.
Arguments heap {B O} _.
Arguments backend {B O} _.

(** A computation on handles can also go wrong ([None]): a null or
    dangling pointer is dereferenced, a null function pointer is called or
    an [assert] fails. *)
Definition R (B O A : Type) : Type :=
  rstate B O -> option (A * rstate B O * list revent).

Definition rret {B O A} (a : A) : R B O A := fun s => Some (a, s, []).

Definition rbind {B O A C} (m : R B O A) (k : A -> R B O C) : R B O C :=
  fun s =>
    match m s with
    | Some (a, s1, l1) =>
        match k a s1 with
        | Some (c, s2, l2) => Some (c, s2, l1 ++ l2)
        | None => None
        end
    | None => None
    end.

Declare Scope resolver_scope.
Delimit Scope resolver_scope with resolver.
Notation "x <- m ;; k" := (rbind m (fun x => k))
  (at level 100, m at next level, right associativity) : resolver_scope.
Notation "m ;; k" := (rbind m (fun _ => k))
  (at level 100, right associativity) : resolver_scope.

Section Resolver.
Context {B O : Type}.

(** The allocator: the address [calloc(1, sizeof(struct Curl_resolver))]
    returns in a given heap, [NULL] when it fails. *)
Variable calloc : gmap Z (Curl_resolver B O) -> ptr.

Local Open Scope resolver_scope.

Definition fault {A} : R B O A := fun _ => None.

Definition call_calloc : R B O ptr :=
  fun s =>
    let p := calloc (heap s) in
    Some (p,
          (if nonnull p
           then mkRstate (<[p := mkResolver 0 None]> (heap s)) (backend s)
           else s),
          [Call_calloc p]).

(** [*r], for a pointer that may be null or dangling. *)
Definition deref (r : ptr) : R B O (Curl_resolver B O) :=
  fun s =>
    if nonnull r then
      match heap s !! r with
      | Some v => Some (v, s, [])
      | None => None
      end
    else None.

Definition assign (r : ptr) (v : Curl_resolver B O) : R B O unit :=
  fun s => Some (tt, mkRstate (<[r := v]> (heap s)) (backend s), []).

(** [r->userdata = v] *)
Definition store_userdata (r : ptr) (v : ptr) : R B O unit :=
  h <- deref r ;;
  assign r (mkResolver v (callbacks h)).

(** [memcpy(&r->callbacks, callbacks, sizeof(struct Curl_resolver_callbacks))] *)
Definition memcpy_callbacks (r : ptr) (cb : Curl_resolver_callbacks B O)
  : R B O unit :=
  h <- deref r ;;
  assign r (mkResolver (userdata h) (Some cb)).

(** [r->callbacks.init(&r->userdata)] *)
Definition call_init (r : ptr) : R B O CURLcode :=
  h <- deref r ;;
  match callbacks h with
  | Some cb =>
      fun s =>
        let '(code, ud, b) := init cb (userdata h) (backend s) in
        Some (code,
              mkRstate (<[r := mkResolver ud (callbacks h)]> (heap s)) b,
              [Call_init (userdata h) code ud])
  | None => fault
  end.

(** [r->callbacks.cleanup(r->userdata)] *)
Definition call_cleanup (r : ptr) : R B O unit :=
  h <- deref r ;;
  match callbacks h with
  | Some cb =>
      fun s =>
        Some (tt,
              mkRstate (heap s) (cleanup cb (userdata h) (backend s)),
              [Call_cleanup (userdata h)])
  | None => fault
  end.

Definition call_free (r : ptr) : R B O unit :=
  fun s => Some (tt, mkRstate (delete r (heap s)) (backend s), [Call_free r]).

Definition Curl_resolver_destroy (resolver : ptr) : R B O unit :=
  (if nonnull resolver then rret tt else fault) ;;   (* assert(resolver) *)
  call_cleanup resolver ;;
  call_free resolver.

Definition Curl_resolver_create (cb : Curl_resolver_callbacks B O) : R B O ptr :=
  ret <- call_calloc ;;
  store_userdata ret 0 ;;
  memcpy_callbacks ret cb ;;
  code <- call_init ret ;;
  if negb (code =? CURLE_OK) then
    Curl_resolver_destroy ret ;;
    rret NULL
  else rret ret.

Definition Curl_resolver_create_with_userdata
  (cb : Curl_resolver_callbacks B O) (ud : ptr) : R B O ptr :=
  ret <- call_calloc ;;
  store_userdata ret ud ;;
  memcpy_callbacks ret cb ;;
  code <- call_init ret ;;
  if negb (code =? CURLE_OK) then
    Curl_resolver_destroy ret ;;
    rret NULL
  else rret ret.

End Resolver.


(** ** Test doubles

    Concrete collaborators and backends, on which the statements below are
    run. *)

Module Doubles.

(** The DNS cache as the list of entries stored so far. *)
Definition cache := list (string * Z * ptr).

Definition share_lock (x : cache) : cache := x.
Definition share_unlock (x : cache) : cache := x.

(** A store that succeeds: the new entry lives at [ai + 1]. *)
Definition cache_addr_ok (ai : ptr) (h : string) (p : Z) (x : cache)
  : ptr * cache := (ai + 1, (h, p, ai) :: x).

(** A store that fails for lack of memory: the cache is left as it was. *)
Definition cache_addr_fail (ai : ptr) (h : string) (p : Z) (x : cache)
  : ptr * cache := (NULL, x).

Definition freeaddrinfo (ai : ptr) (x : cache) : cache := x.

Definition setup_ok (c : connectdata) (pd : bool) (x : cache)
  : CURLcode * connectdata * bool * cache := (CURLE_OK, c, true, x).

(** 7 is CURLE_COULDNT_CONNECT. *)
Definition setup_fail (c : connectdata) (pd : bool) (x : cache)
  : CURLcode * connectdata * bool * cache := (7, c, pd, x).

Definition disconnect (c : connectdata) (dead : bool) (x : cache) : cache := x.

(** A connection that waits for "example.test":80, in a handle without a
    share. *)
Definition pending : world cache :=
  mkWorld (mkConn (mkAsync "example.test" 80 NULL false 0) NULL) NULL [].

(** The same connection in a handle with a share. *)
Definition pending_shared : world cache :=
  mkWorld (mkConn (mkAsync "example.test" 80 NULL false 0) NULL) 512 [].

(** The lookup succeeded with the list at 4096 and the store failed. *)
Definition store_failure_run : CURLcode * world cache * list event :=
  Curl_addrinfo_callback share_lock share_unlock cache_addr_fail freeaddrinfo
    CURL_ASYNC_SUCCESS 4096 pending.

(** A connection whose lookup failed: the callback was given status 4. *)
Definition failed_lookup : world cache :=
  final (Curl_addrinfo_callback share_lock share_unlock cache_addr_ok
           freeaddrinfo 4 NULL pending).

Definition failed_lookup_run : CURLcode * bool * world cache * list event :=
  Curl_async_resolved setup_ok disconnect false failed_lookup.

(** A connection whose lookup succeeded with the list at 4096. *)
Definition resolved : world cache :=
  final (Curl_addrinfo_callback share_lock share_unlock cache_addr_ok
           freeaddrinfo CURL_ASYNC_SUCCESS 4096 pending).

(** A backend that counts its private allocations.  [init] allocates its
    state at 12288 and then reports the given code. *)
Definition counting_backend (code : CURLcode)
  : Curl_resolver_callbacks nat unit :=
  mkCallbacks (fun ud b => (code, 12288, S b)) (fun ud b => Nat.pred b) tt.

(** An allocator that hands out 8192. *)
Definition calloc_8192 (h : gmap Z (Curl_resolver nat unit)) : ptr := 8192.

Definition empty_heap : rstate nat unit := mkRstate ∅ 0%nat.

End Doubles.

(** ** The design document's sentences, as predicates on a run *)

(** "The overall result is downgraded to an out-of-memory failure" and
    "Pending Resolution status = OutOfMemory", for a run of the callback
    whose store failed on the list [ai]. *)
Definition store_failure_as_specified {X}
  (ai : ptr) (r : CURLcode * world X * list event) : Prop :=
  occurs (is_freeaddrinfo_of ai) (log r) = true /\
  value r = CURLE_OUT_OF_MEMORY /\
  status (async (w_conn (final r))) = CURLE_OUT_OF_MEMORY.

(** "The consumer skips setup and reports the stored status directly, after
    tearing down connection resources", for a run of the consumer from the
    state [w]. *)
Definition failure_reported_as_specified {X}
  (w : world X) (r : CURLcode * bool * world X * list event) : Prop :=
  occurs is_setup_conn (log r) = false /\
  fst (value r) = status (async (w_conn w)) /\
  occurs is_disconnect (log r) = true.

(** ** The rest of hostasyn.c: using a handle

    [Curl_resolver_userdata] and [Curl_getaddrinfo] reach the handle
    through [data->resolver].  [data] is a pointer the caller passes:
    [None] stands for a null [data]. *)

(** [CURL], the field the resolver functions touch. *)
Record CURL_handle := mkHandle {
  resolver : ptr     (* struct Curl_resolver * *)
}.

Definition is_lock (e : event) : bool :=
  match e with Call_share_lock => true | _ => false end.

Definition is_unlock (e : event) : bool :=
  match e with Call_share_unlock => true | _ => false end.

Definition is_init (e : revent) : bool :=
  match e with Call_init _ _ _ => true | _ => false end.

Section ResolverUse.
Context {B O : Type}.

(** The [get_addr_info] slot of the table, one of the six slots kept in
    [other_ops]: given [data], the host name, the port and [*waitp], it
    returns the address list and what it leaves in [*waitp]. *)
Variable get_addr_info :
  O -> CURL_handle -> string -> Z -> Z -> B -> ptr * Z * B.

Local Open Scope resolver_scope.

(** [assert(p)] on a pointer to a [CURL]. *)
Definition assert_data (data : option CURL_handle) : R B O CURL_handle :=
  match data with
  | Some d => rret d
  | None => fault
  end.

Definition Curl_resolver_userdata (data : option CURL_handle) : R B O ptr :=
  d <- assert_data data ;;                              (* assert(data) *)
  (if nonnull (resolver d) then rret tt else fault) ;;  (* assert(data->resolver) *)
  h <- deref (resolver d) ;;
  rret (userdata h).

(** [conn] is taken to be valid; [conn_data] is [conn->data], which the
    function dereferences without a check.  Returns the list and the value
    left in [*waitp]. *)
Definition Curl_getaddrinfo (conn_data : option CURL_handle)
  (hostname : string) (port : Z) (waitp : Z) : R B O (ptr * Z) :=
  data <- assert_data conn_data ;;
  h <- deref (resolver data) ;;
  match callbacks h with
  | Some cb =>
      fun s =>
        let '(ret, wp, b) :=
          get_addr_info (other_ops cb) data hostname port waitp (backend s) in
        Some ((ret, wp), mkRstate (heap s) b, [])
  | None => fault
  end.

End ResolverUse.

(** The backend of [Doubles] answers every lookup with the list at 4096
    and asks the caller to wait. *)
Module UseDoubles.

Definition get_addr_info (o : unit) (d : CURL_handle) (h : string)
  (p : Z) (waitp : Z) (b : nat) : ptr * Z * nat := (4096, 1, b).

(** An allocator that fails. *)
Definition calloc_fails (h : gmap Z (Curl_resolver nat unit)) : ptr := NULL.

(** A handle at 8192 holding the userdata 12288. *)
Definition one_handle : rstate nat unit :=
  mkRstate {[ 8192 := mkResolver 12288 (Some (Doubles.counting_backend CURLE_OK)) ]}
    1%nat.

End UseDoubles.

(** The share lock along a run: whether it is held after the events
    [l], starting from [held]; [None] when the lock is taken while held
    or released while free. *)
Fixpoint lock_state (held : bool) (l : list event) : option bool :=
  match l with
  | [] => Some held
  | Call_share_lock :: l' => if held then None else lock_state true l'
  | Call_share_unlock :: l' => if held then lock_state false l' else None
  | _ :: l' => lock_state held l'
  end.

(** Whether every call of the cache store and of the release of a list
    in [l] is made in the lock state [want], starting from [held]. *)
Fixpoint stores_in_lock_state (want held : bool) (l : list event) : bool :=
  match l with
  | [] => true
  | Call_share_lock :: l' => stores_in_lock_state want true l'
  | Call_share_unlock :: l' => stores_in_lock_state want false l'
  | Call_cache_addr _ _ _ _ :: l' =>
      Bool.eqb held want && stores_in_lock_state want held l'
  | Call_freeaddrinfo _ :: l' =>
      Bool.eqb held want && stores_in_lock_state want held l'
  | _ :: l' => stores_in_lock_state want held l'
  end.

(** * Properties *)

Lemma nonnull_true p : p <> NULL -> nonnull p = true.
Proof.
  intros H. unfold nonnull. destruct (Z.eqb_spec p NULL); [congruence | reflexivity].
Qed.

Lemma nonnull_false p : nonnull p = false -> p = NULL.
Proof.
  unfold nonnull. destruct (Z.eqb_spec p NULL); [tauto | discriminate].
Qed.

Lemma nonnull_spec p : nonnull p = true <-> p <> NULL.
Proof.
  split; [| apply nonnull_true].
  unfold nonnull. destruct (Z.eqb_spec p NULL); [discriminate | tauto].
Qed.

Lemma occurs_app {E} (p : E -> bool) l1 l2 :
  occurs p (l1 ++ l2) = occurs p l1 || occurs p l2.
Proof. apply existsb_app. Qed.

Lemma count_app {E} (p : E -> bool) l1 l2 :
  (count p (l1 ++ l2) = count p l1 + count p l2)%nat.
Proof. unfold count. rewrite List.filter_app. apply length_app. Qed.

(** ** The scenarios of the design document, run on the doubles *)

(** Under a share, "example.test":80 resolves to the list at 4096: the
    store runs between lock and unlock, the entry is the one claimed. *)
Example scenario_resolved :
  Curl_addrinfo_callback Doubles.share_lock Doubles.share_unlock
    Doubles.cache_addr_ok Doubles.freeaddrinfo CURL_ASYNC_SUCCESS 4096
    Doubles.pending_shared =
  (CURLE_OK,
   mkWorld (mkConn (mkAsync "example.test" 80 4097 true CURL_ASYNC_SUCCESS)
              NULL)
     512 [("example.test", 80, 4096)],
   [Store_status CURL_ASYNC_SUCCESS; Call_share_lock;
    Call_cache_addr 4096 "example.test" 80 4097; Call_share_unlock;
    Store_dns 4097; Store_done true]).
Proof. reflexivity. Qed.

(** The lookup succeeds and setup fails. *)
Example scenario_setup_fails :
  Curl_async_resolved Doubles.setup_fail Doubles.disconnect false
    Doubles.resolved =
  ((7, false),
   mkWorld (mkConn (mkAsync "example.test" 80 NULL true CURL_ASYNC_SUCCESS)
              4097)
     NULL [("example.test", 80, 4096)],
   [Store_dns_entry 4097; Store_dns NULL; Call_setup_conn 7;
    Call_disconnect false]).
Proof. reflexivity. Qed.

(** A backend whose [init] succeeds gets its handle, with the userdata
    [init] left in it; a failed allocation is a fault. *)
Example scenario_create :
  Curl_resolver_create Doubles.calloc_8192
    (Doubles.counting_backend CURLE_OK) Doubles.empty_heap =
  Some (8192,
        mkRstate
          {[ 8192 := mkResolver 12288
                       (Some (Doubles.counting_backend CURLE_OK)) ]}
          1%nat,
        [Call_calloc 8192; Call_init 0 CURLE_OK 12288]).
Proof. reflexivity. Qed.

Example scenario_create_no_memory :
  Curl_resolver_create (fun _ => NULL)
    (Doubles.counting_backend CURLE_OK) Doubles.empty_heap = None.
Proof. reflexivity. Qed.

Section CallbackFacts.
Context {X : Type}.
Variable Curl_share_lock : X -> X.
Variable Curl_share_unlock : X -> X.
Variable Curl_cache_addr : ptr -> string -> Z -> X -> ptr * X.
Variable Curl_freeaddrinfo : ptr -> X -> X.

Local Abbreviation callback :=
  (Curl_addrinfo_callback Curl_share_lock Curl_share_unlock Curl_cache_addr
     Curl_freeaddrinfo).
Local Abbreviation resolved_step :=
  (store_resolved Curl_share_lock Curl_share_unlock Curl_cache_addr
     Curl_freeaddrinfo).
Local Abbreviation stored ai w :=
  (fst (store_call Curl_share_lock Curl_cache_addr ai w)).

(** The three branches of the callback, in closed form. *)
Lemma store_resolved_run st ai w :
  let d := stored ai w in
  let r := resolved_step st ai w in
  w_conn (final r) = w_conn w /\ w_share (final r) = w_share w /\
  (value r, log r) =
    if CURL_ASYNC_SUCCESS =? st then
      if nonnull ai then
        ((d, if nonnull d then CURLE_OK else CURLE_OUT_OF_MEMORY),
         store_events ai d w)
      else ((NULL, CURLE_OUT_OF_MEMORY), [])
    else ((NULL, CURLE_OK), []).
Proof.
  unfold store_resolved, store_events, store_call, at_store, locked.
  destruct (CURL_ASYNC_SUCCESS =? st); [| cbn; auto].
  destruct (nonnull ai); [| cbn; auto].
  destruct w as [c sh x]; cbn [w_share w_conn w_ext].
  unfold bind, load_share, load, when, call_, call, ret, value, final, log.
  cbn [w_share w_conn w_ext].
  destruct (nonnull sh) eqn:Hs; cbn [w_share w_conn w_ext];
    destruct (Curl_cache_addr ai (hostname (async c)) (port (async c)) _)
      as [d x']; cbn [fst snd];
    destruct (nonnull d); cbn; rewrite ?Hs; cbn; auto.
Qed.

(** The callback around its branches: the status is stored first, the
    entry and the flag last. *)
Lemma callback_run st ai w :
  let w0 := mkWorld (with_status st (w_conn w)) (w_share w) (w_ext w) in
  let r := resolved_step st ai w0 in
  value (callback st ai w) = snd (value r) /\
  w_conn (final (callback st ai w)) =
    with_done TRUE (with_dns (fst (value r)) (w_conn (final r))) /\
  log (callback st ai w) =
    Store_status st :: log r ++ [Store_dns (fst (value r)); Store_done TRUE].
Proof.
  cbv zeta.
  unfold Curl_addrinfo_callback, bind, store_status, store_dns, store_done,
    store, ret, value, final, log.
  cbn [w_conn w_share w_ext].
  destruct (resolved_step st ai _) as [[[d res] w1] l].
  cbn. auto.
Qed.

Ltac by_store_events :=
  unfold store_events, locked, occurs, count;
  repeat match goal with
         | |- context [nonnull ?p] => destruct (nonnull p) eqn:?
         end;
  cbn; rewrite ?Z.eqb_refl; try reflexivity; try discriminate.

Lemma store_events_created ai d (w : world X) :
  occurs is_cache_entry_created (store_events ai d w) = nonnull d.
Proof.
  unfold store_events, locked, occurs.
  destruct (nonnull (w_share w)), (nonnull d) eqn:Hd; cbn; rewrite Hd;
    reflexivity.
Qed.

Lemma store_events_released ai d (w : world X) :
  occurs (is_freeaddrinfo_of ai) (store_events ai d w) = negb (nonnull d).
Proof. by_store_events. Qed.

Lemma store_events_counts ai d (w : world X) :
  count is_cache_addr (store_events ai d w) = 1%nat /\
  count is_freeaddrinfo (store_events ai d w) =
    (if nonnull d then 0 else 1)%nat.
Proof. split; by_store_events. Qed.

Lemma store_events_no_store_done ai d (w : world X) :
  occurs is_store_done (store_events ai d w) = false.
Proof. by_store_events. Qed.

Lemma store_events_no_status_dns ai d (w : world X) :
  count is_store_status_or_dns (store_events ai d w) = 0%nat.
Proof. by_store_events. Qed.

Lemma store_resolved_no_status_dns st ai w :
  count is_store_status_or_dns (log (resolved_step st ai w)) = 0%nat.
Proof.
  destruct (store_resolved_run st ai w) as (_ & _ & H).
  apply (f_equal snd) in H. cbn [snd] in H. rewrite H.
  destruct (CURL_ASYNC_SUCCESS =? st); [| reflexivity].
  destruct (nonnull ai); [| reflexivity].
  apply store_events_no_status_dns.
Qed.

Lemma store_resolved_no_store_done st ai w :
  occurs is_store_done (log (resolved_step st ai w)) = false.
Proof.
  destruct (store_resolved_run st ai w) as (_ & _ & H).
  apply (f_equal snd) in H. cbn [snd] in H. rewrite H.
  destruct (CURL_ASYNC_SUCCESS =? st); [| reflexivity].
  destruct (nonnull ai); [| reflexivity].
  apply store_events_no_store_done.
Qed.

(** C1. In every run of the completion callback the store of [TRUE] to
    [conn->async.done] is the last event; the two stores to
    [conn->async.status] and [conn->async.dns] come before it, no other
    store to the flag does, and the values stored are the ones the fields
    hold when the callback returns. *)
Theorem callback_sets_done_last st ai w :
  exists pre,
    log (callback st ai w) = pre ++ [Store_done TRUE] /\
    occurs is_store_done pre = false /\
    count is_store_status_or_dns pre = 2%nat /\
    In (Store_status st) pre /\
    In (Store_dns (dns (async (w_conn (final (callback st ai w)))))) pre /\
    status (async (w_conn (final (callback st ai w)))) = st /\
    done (async (w_conn (final (callback st ai w)))) = TRUE.
Proof.
  destruct (callback_run st ai w) as (_ & Hc & Hl).
  set (w0 := mkWorld (with_status st (w_conn w)) (w_share w) (w_ext w)) in *.
  destruct (store_resolved_run st ai w0) as (Hc0 & _ & _).
  set (r := resolved_step st ai w0) in *.
  exists (Store_status st :: log r ++ [Store_dns (fst (value r))]).
  rewrite Hl, Hc, Hc0. cbn [app].
  repeat split.
  - now rewrite <- app_assoc.
  - unfold occurs. cbn [existsb is_store_done orb].
    rewrite existsb_app. fold (occurs is_store_done (log r)).
    unfold r. rewrite store_resolved_no_store_done. reflexivity.
  - change (Store_status st :: ?l ++ ?m) with ([Store_status st] ++ l ++ m).
    rewrite !count_app. unfold r.
    rewrite store_resolved_no_status_dns. reflexivity.
  - now left.
  - right. apply in_or_app. right. now left.
Qed.

(** The callback's result, the entry it leaves in [conn->async.dns] and
    the calls it makes are those of its branch. *)
Lemma callback_branch st ai w :
  let w0 := mkWorld (with_status st (w_conn w)) (w_share w) (w_ext w) in
  let r := resolved_step st ai w0 in
  value (callback st ai w) = snd (value r) /\
  dns (async (w_conn (final (callback st ai w)))) = fst (value r) /\
  status (async (w_conn (final (callback st ai w)))) = st /\
  (forall p, p (Store_status st) = false ->
             (forall v, p (Store_dns v) = false) ->
             p (Store_done TRUE) = false ->
             occurs p (log (callback st ai w)) = occurs p (log r)) /\
  stored ai w0 = stored ai w /\ store_events ai (stored ai w) w0 =
                                 store_events ai (stored ai w) w.
Proof.
  cbv zeta.
  destruct (callback_run st ai w) as (Hv & Hc & Hl).
  set (w0 := mkWorld (with_status st (w_conn w)) (w_share w) (w_ext w)) in *.
  destruct (store_resolved_run st ai w0) as (Hc0 & _ & _).
  rewrite Hv, Hc, Hc0, Hl. repeat split.
  intros p H1 H2 H3. unfold occurs. cbn [existsb]. rewrite H1.
  rewrite existsb_app. cbn. rewrite H2, H3, !orb_false_r. reflexivity.
Qed.

(** C2. When the completion callback has returned, [conn->async.dns] is
    non-null if and only if the status it was given is success and the
    store in the cache succeeded, that is, [Curl_cache_addr] was called and
    returned an entry. *)
Theorem callback_dns_iff_stored st ai w :
  dns (async (w_conn (final (callback st ai w)))) <> NULL <->
  st = CURL_ASYNC_SUCCESS /\
  occurs is_cache_entry_created (log (callback st ai w)) = true.
Proof.
  destruct (callback_branch st ai w) as (_ & Hd & _ & Ho & Hs & _).
  rewrite Hd, (Ho is_cache_entry_created) by reflexivity.
  set (w0 := mkWorld (with_status st (w_conn w)) (w_share w) (w_ext w)) in *.
  destruct (store_resolved_run st ai w0) as (_ & _ & H).
  assert (Hv := f_equal fst H). assert (Hl := f_equal snd H).
  cbn [fst snd] in Hv, Hl. rewrite Hv, Hl. clear H Hv Hl.
  destruct (Z.eqb_spec CURL_ASYNC_SUCCESS st) as [E | E].
  - destruct (nonnull ai); cbn [fst snd].
    + rewrite store_events_created, nonnull_spec. intuition congruence.
    + cbn. intuition congruence.
  - cbn. intuition congruence.
Qed.

(** C8. Given a success status and no list, the completion callback
    returns [CURLE_OUT_OF_MEMORY], and it neither calls the cache store nor
    takes or releases the share lock. *)
Theorem callback_success_without_list w :
  value (callback CURL_ASYNC_SUCCESS NULL w) = CURLE_OUT_OF_MEMORY /\
  occurs is_cache_addr (log (callback CURL_ASYNC_SUCCESS NULL w)) = false /\
  occurs is_lock_op (log (callback CURL_ASYNC_SUCCESS NULL w)) = false.
Proof. repeat split. Qed.

(** C4, as the code has it.  Given a success status and a list, when the
    store fails the list is released right after the failed store, the
    callback returns [CURLE_OUT_OF_MEMORY], and [conn->async] keeps the
    success status it was given, with a null entry. *)
Theorem callback_store_failure ai w :
  ai <> NULL ->
  stored ai w = NULL ->
  (exists l1 l2,
      log (callback CURL_ASYNC_SUCCESS ai w) =
        l1 ++ [Call_cache_addr ai (hostname (async (w_conn w)))
                 (port (async (w_conn w))) NULL;
               Call_freeaddrinfo ai] ++ l2) /\
  value (callback CURL_ASYNC_SUCCESS ai w) = CURLE_OUT_OF_MEMORY /\
  status (async (w_conn (final (callback CURL_ASYNC_SUCCESS ai w)))) =
    CURL_ASYNC_SUCCESS /\
  dns (async (w_conn (final (callback CURL_ASYNC_SUCCESS ai w)))) = NULL.
Proof.
  intros Hai Hd. apply nonnull_true in Hai.
  destruct (callback_run CURL_ASYNC_SUCCESS ai w) as (_ & _ & Hl).
  destruct (callback_branch CURL_ASYNC_SUCCESS ai w)
    as (Hv & Hdns & Hst & _ & Hs & _).
  set (w0 := mkWorld _ (w_share w) (w_ext w)) in *.
  destruct (store_resolved_run CURL_ASYNC_SUCCESS ai w0) as (_ & _ & H).
  rewrite Hai, Hs, Hd in H.
  change (CURL_ASYNC_SUCCESS =? CURL_ASYNC_SUCCESS) with true in H.
  change (nonnull NULL) with false in H. cbv iota in H.
  assert (Hval := f_equal fst H). assert (Hlog := f_equal snd H).
  cbn [fst snd] in Hval, Hlog.
  rewrite Hl, Hv, Hdns, Hst, Hval, Hlog. clear.
  split; [| repeat split].
  unfold store_events, locked. cbn [w0 w_share w_conn fst].
  exists (Store_status CURL_ASYNC_SUCCESS
            :: (if nonnull (w_share w) then [Call_share_lock] else [])).
  exists ((if nonnull (w_share w) then [Call_share_unlock] else [])
            ++ [Store_dns NULL; Store_done TRUE]).
  change (nonnull NULL) with false.
  cbn [app with_status hostname port async fst]. rewrite <- !app_assoc.
  reflexivity.
Qed.

End CallbackFacts.

Lemma callback_store_failure_witness :
  (4096 <> NULL /\
   fst (store_call Doubles.share_lock Doubles.cache_addr_fail 4096
          Doubles.pending) = NULL) /\
  value Doubles.store_failure_run = CURLE_OUT_OF_MEMORY /\
  status (async (w_conn (final Doubles.store_failure_run))) =
    CURL_ASYNC_SUCCESS.
Proof.
  assert (H1 : 4096 <> NULL) by discriminate.
  assert (H2 : fst (store_call Doubles.share_lock Doubles.cache_addr_fail 4096
                      Doubles.pending) = NULL) by reflexivity.
  split; [exact (conj H1 H2) |].
  pose proof (callback_store_failure Doubles.share_lock Doubles.share_unlock
                Doubles.cache_addr_fail Doubles.freeaddrinfo 4096
                Doubles.pending H1 H2) as (_ & Hv & Hs & _).
  exact (conj Hv Hs).
Defined.

(** C4, as stated, fails: after a failed store of the list at 4096 the
    callback returns [CURLE_OUT_OF_MEMORY] and has released the list, but
    the status of the pending resolution is still [CURL_ASYNC_SUCCESS],
    not out of memory. *)
Lemma store_failure_keeps_success_status :
  (4096 <> NULL /\
   fst (store_call Doubles.share_lock Doubles.cache_addr_fail 4096
          Doubles.pending) = NULL) /\
  (value Doubles.store_failure_run = CURLE_OUT_OF_MEMORY /\
   status (async (w_conn (final Doubles.store_failure_run))) =
     CURL_ASYNC_SUCCESS) /\
  ~ store_failure_as_specified 4096 Doubles.store_failure_run.
Proof.
  split; [split; [discriminate | reflexivity] |].
  split; [split; reflexivity |].
  intros (_ & _ & H). discriminate H.
Qed.

(** ** The resolution consumer *)

Lemma bind_run {X A B} (m : M X A) (k : A -> M X B) w :
  bind m k w =
    (value (k (value (m w)) (final (m w))),
     final (k (value (m w)) (final (m w))),
     log (m w) ++ log (k (value (m w)) (final (m w)))).
Proof.
  unfold bind, value, final, log.
  destruct (m w) as [[a w1] l1]. cbn [fst snd].
  destruct (k a w1) as [[b w2] l2]. reflexivity.
Qed.

Lemma claim_dns_run {X} (w : world X) :
  claim_dns w =
    (tt,
     mkWorld (if nonnull (dns (async (w_conn w)))
              then with_dns NULL (with_dns_entry (dns (async (w_conn w)))
                                    (w_conn w))
              else w_conn w)
       (w_share w) (w_ext w),
     if nonnull (dns (async (w_conn w)))
     then [Store_dns_entry (dns (async (w_conn w))); Store_dns NULL]
     else []).
Proof.
  unfold claim_dns, bind, load. cbn [w_conn].
  destruct w as [c sh x]; cbn [w_conn w_share w_ext].
  destruct (nonnull (dns (async c))); reflexivity.
Qed.


Lemma claim_dns_null {X} (w : world X) :
  dns (async (w_conn w)) = NULL -> claim_dns w = (tt, w, []).
Proof.
  intros H. rewrite claim_dns_run, H. destruct w; reflexivity.
Qed.

Section ConsumerFacts.
Context {X : Type}.
Variable Curl_setup_conn :
  connectdata -> bool -> X -> CURLcode * connectdata * bool * X.
Variable Curl_disconnect : connectdata -> bool -> X -> X.

Local Abbreviation consumer :=
  (Curl_async_resolved Curl_setup_conn Curl_disconnect).

(** What setup returns when the consumer calls it from [w]. *)
Local Abbreviation setup_from pd w :=
  (Curl_setup_conn (w_conn (final (claim_dns w))) pd (w_ext w)).

Lemma async_resolved_run pd (w : world X) :
  value (consumer pd w) =
    (setup_result (setup_from pd w), setup_protocol_done (setup_from pd w)) /\
  w_conn (final (consumer pd w)) = setup_conn (setup_from pd w) /\
  log (consumer pd w) =
    log (claim_dns w) ++
    Call_setup_conn (setup_result (setup_from pd w))
    :: (if is_error (setup_result (setup_from pd w))
        then [Call_disconnect FALSE] else []).
Proof.
  unfold Curl_async_resolved. rewrite bind_run, !claim_dns_run.
  unfold value, final, log. cbn [fst snd].
  unfold bind, call_setup_conn, when, call_disconnect, ret,
    setup_result, setup_conn, setup_protocol_done.
  cbn [w_conn w_ext w_share].
  destruct (Curl_setup_conn _ pd (w_ext w)) as [[[res c] pd'] x].
  cbn [fst snd]. destruct (is_error res); cbn; auto.
Qed.

Lemma claim_dns_log_stores (w : world X) :
  occurs is_setup_conn (log (claim_dns w)) = false /\
  occurs is_disconnect (log (claim_dns w)) = false /\
  count is_setup_conn (log (claim_dns w)) = 0%nat.
Proof.
  rewrite claim_dns_run. unfold log. cbn [snd].
  destruct (nonnull _); repeat split.
Qed.

(** C5, as the code has it.  The consumer does not look at the status of
    the pending resolution: from every state it calls [Curl_setup_conn]
    once and returns its result, and it calls [Curl_disconnect] exactly
    when that result is a failure. *)
Theorem async_resolved_always_sets_up pd (w : world X) :
  count is_setup_conn (log (consumer pd w)) = 1%nat /\
  fst (value (consumer pd w)) = setup_result (setup_from pd w) /\
  occurs is_disconnect (log (consumer pd w)) =
    is_error (fst (value (consumer pd w))).
Proof.
  destruct (async_resolved_run pd w) as (Hv & _ & Hl).
  destruct (claim_dns_log_stores w) as (_ & H2 & H3).
  rewrite Hv, Hl, count_app, occurs_app, H2, H3. cbn [fst].
  destruct (is_error _); repeat split.
Qed.


End ConsumerFacts.


(** C5, as stated, fails: for the connection whose lookup failed with
    status 4, the consumer still calls [Curl_setup_conn], returns its
    [CURLE_OK] and not the stored status, and tears nothing down. *)
Lemma failed_lookup_still_set_up :
  status (async (w_conn Doubles.failed_lookup)) = 4 /\
  4 <> CURL_ASYNC_SUCCESS /\
  occurs is_setup_conn (log Doubles.failed_lookup_run) = true /\
  fst (value Doubles.failed_lookup_run) = CURLE_OK /\
  occurs is_disconnect (log Doubles.failed_lookup_run) = false /\
  ~ failure_reported_as_specified Doubles.failed_lookup
      Doubles.failed_lookup_run.
Proof.
  repeat split; try discriminate.
  intros (H & _). discriminate H.
Qed.

(** ** The resolver handle *)

Section ResolverFacts.
Context {B O : Type}.
Variable calloc : gmap Z (Curl_resolver B O) -> ptr.

Local Abbreviation create := (Curl_resolver_create calloc).
Local Abbreviation create_with_userdata :=
  (Curl_resolver_create_with_userdata calloc).

Ltac run_handle :=
  repeat first
    [ rewrite lookup_insert_eq
    | rewrite insert_insert_eq
    | rewrite delete_insert_eq
    | progress cbn [heap backend userdata callbacks rbind rret fst snd app
                    negb] ].

(** A run of handle creation whose allocation succeeds, in closed form. *)
Lemma create_with_userdata_run cb ud (s : rstate B O) :
  calloc (heap s) <> NULL ->
  create_with_userdata cb ud s =
    Some
      (let p := calloc (heap s) in
       let '(code, ud', b) := init cb ud (backend s) in
       if negb (code =? CURLE_OK) then
         (NULL,
          mkRstate (delete p (heap s)) (cleanup cb ud' b),
          [Call_calloc p; Call_init ud code ud'; Call_cleanup ud'; Call_free p])
       else
         (p,
          mkRstate (<[p := mkResolver ud' (Some cb)]> (heap s)) b,
          [Call_calloc p; Call_init ud code ud'])).
Proof.
  intros Hp. apply nonnull_true in Hp.
  unfold Curl_resolver_create_with_userdata, call_calloc, store_userdata,
    memcpy_callbacks, call_init, Curl_resolver_destroy, call_cleanup,
    call_free, deref, assign, fault.
  unfold rbind. cbn [heap backend]. rewrite Hp. run_handle.
  destruct (init cb ud (backend s)) as [[code ud'] b].
  destruct (negb (code =? CURLE_OK)); run_handle; rewrite ?Hp; run_handle;
    reflexivity.
Qed.

(** C9. When the allocation succeeds and the backend's [init] fails,
    handle creation returns null.  Its run is the allocation, [init], one
    call of [cleanup] on the userdata [init] left, and then the release of
    the handle: [cleanup] runs exactly once and before [free], the handle
    is no longer allocated, and no other handle is touched. *)
Theorem create_init_failure cb (s : rstate B O) :
  calloc (heap s) <> NULL ->
  init_code (init cb 0 (backend s)) <> CURLE_OK ->
  exists s',
    create cb s =
      Some (NULL, s',
            [Call_calloc (calloc (heap s));
             Call_init 0 (init_code (init cb 0 (backend s)))
               (init_userdata (init cb 0 (backend s)));
             Call_cleanup (init_userdata (init cb 0 (backend s)));
             Call_free (calloc (heap s))]) /\
    (forall l, create cb s = Some (NULL, s', l) ->
               count is_cleanup l = 1%nat /\ count is_free l = 1%nat) /\
    heap s' !! calloc (heap s) = None /\
    heap s' = delete (calloc (heap s)) (heap s) /\
    backend s' =
      cleanup cb (init_userdata (init cb 0 (backend s)))
        (init_backend (init cb 0 (backend s))).
Proof.
  intros Hp Hcode.
  change (create cb s) with (create_with_userdata cb 0 s).
  rewrite (create_with_userdata_run cb 0 s Hp).
  unfold init_code, init_userdata, init_backend in *.
  destruct (init cb 0 (backend s)) as [[code ud'] b]. cbn [fst snd] in *.
  destruct (Z.eqb_spec code CURLE_OK) as [E | _]; [contradiction |].
  cbn [negb]. eexists. split; [reflexivity |].
  cbn [heap backend]. split; [| split; [apply lookup_delete_eq | split]];
    try reflexivity.
  intros l Hl. injection Hl as <-. split; reflexivity.
Qed.

(** C10. For every table of callbacks, [Curl_resolver_create] does what
    [Curl_resolver_create_with_userdata] does with a null userdata: the
    same result, the same handles and backend state, the same calls, and
    the same failure when the allocation fails. *)
Theorem create_is_create_with_null_userdata cb (s : rstate B O) :
  Curl_resolver_create calloc cb s =
  Curl_resolver_create_with_userdata calloc cb NULL s.
Proof. reflexivity. Qed.

End ResolverFacts.

Lemma create_init_failure_witness :
  (Doubles.calloc_8192 (heap Doubles.empty_heap) <> NULL /\
   init_code (init (Doubles.counting_backend CURLE_OUT_OF_MEMORY) 0
                (backend Doubles.empty_heap)) <> CURLE_OK) /\
  exists s',
    Curl_resolver_create Doubles.calloc_8192
      (Doubles.counting_backend CURLE_OUT_OF_MEMORY) Doubles.empty_heap =
      Some (NULL, s',
            [Call_calloc 8192; Call_init 0 CURLE_OUT_OF_MEMORY 12288;
             Call_cleanup 12288; Call_free 8192]) /\
    heap s' !! 8192 = None /\
    backend s' = 0%nat.
Proof.
  assert (H1 : Doubles.calloc_8192 (heap Doubles.empty_heap) <> NULL)
    by discriminate.
  assert (H2 : init_code (init (Doubles.counting_backend CURLE_OUT_OF_MEMORY) 0
                            (backend Doubles.empty_heap)) <> CURLE_OK)
    by discriminate.
  split; [exact (conj H1 H2) |].
  destruct (create_init_failure Doubles.calloc_8192
              (Doubles.counting_backend CURLE_OUT_OF_MEMORY)
              Doubles.empty_heap H1 H2) as (s' & Hrun & _ & Hh & _ & Hb).
  exists s'. exact (conj Hrun (conj Hh Hb)).
Defined.

(** * Further properties of the code *)

(** ** The completion callback *)

Section CallbackMore.
Context {X : Type}.
Variable Curl_share_lock : X -> X.
Variable Curl_share_unlock : X -> X.
Variable Curl_cache_addr : ptr -> string -> Z -> X -> ptr * X.
Variable Curl_freeaddrinfo : ptr -> X -> X.

Local Abbreviation callback :=
  (Curl_addrinfo_callback Curl_share_lock Curl_share_unlock Curl_cache_addr
     Curl_freeaddrinfo).
Local Abbreviation resolved_step :=
  (store_resolved Curl_share_lock Curl_share_unlock Curl_cache_addr
     Curl_freeaddrinfo).
Local Abbreviation stored ai w :=
  (fst (store_call Curl_share_lock Curl_cache_addr ai w)).

(** The value and the log of a run of the callback, by its branch. *)
Lemma callback_cases st ai (w : world X) :
  (st <> CURL_ASYNC_SUCCESS /\
   value (callback st ai w) = CURLE_OK /\
   dns (async (w_conn (final (callback st ai w)))) = NULL /\
   log (callback st ai w) = [Store_status st; Store_dns NULL; Store_done TRUE])
  \/
  (st = CURL_ASYNC_SUCCESS /\ ai = NULL /\
   value (callback st ai w) = CURLE_OUT_OF_MEMORY /\
   dns (async (w_conn (final (callback st ai w)))) = NULL /\
   log (callback st ai w) = [Store_status st; Store_dns NULL; Store_done TRUE])
  \/
  (st = CURL_ASYNC_SUCCESS /\ ai <> NULL /\
   value (callback st ai w) =
     (if nonnull (stored ai w) then CURLE_OK else CURLE_OUT_OF_MEMORY) /\
   dns (async (w_conn (final (callback st ai w)))) = stored ai w /\
   log (callback st ai w) =
     Store_status st :: store_events ai (stored ai w) w ++
     [Store_dns (stored ai w); Store_done TRUE]).
Proof.
  destruct (callback_run Curl_share_lock Curl_share_unlock Curl_cache_addr
              Curl_freeaddrinfo st ai w) as (Hv & Hc & Hl).
  set (w0 := mkWorld (with_status st (w_conn w)) (w_share w) (w_ext w)) in *.
  destruct (store_resolved_run Curl_share_lock Curl_share_unlock
              Curl_cache_addr Curl_freeaddrinfo st ai w0) as (Hc0 & _ & H).
  change (fst (store_call Curl_share_lock Curl_cache_addr ai w0))
    with (stored ai w) in H.
  change (store_events ai (stored ai w) w0)
    with (store_events ai (stored ai w) w) in H.
  assert (Hval := f_equal fst H). assert (Hlog := f_equal snd H).
  cbn [fst snd] in Hval, Hlog. clear H.
  rewrite Hv, Hc, Hl, Hc0. cbn [with_done with_dns dns async].
  destruct (Z.eqb_spec CURL_ASYNC_SUCCESS st) as [E | E].
  - destruct (nonnull ai) eqn:Ha; cbn [fst snd] in Hval, Hlog;
      rewrite Hval, Hlog; cbn [fst snd app].
    + right; right. apply nonnull_spec in Ha. auto.
    + right; left. apply nonnull_false in Ha. auto.
  - cbn [fst snd] in Hval, Hlog. rewrite Hval, Hlog. cbn [fst snd app].
    left. split; [congruence | auto].
Qed.

(** A run with a status other than success, in closed form. *)
Lemma callback_failure_run st ai (w : world X) :
  st <> CURL_ASYNC_SUCCESS ->
  callback st ai w =
    (CURLE_OK,
     mkWorld (mkConn (mkAsync (hostname (async (w_conn w)))
                        (port (async (w_conn w))) NULL TRUE st)
                (dns_entry (w_conn w)))
       (w_share w) (w_ext w),
     [Store_status st; Store_dns NULL; Store_done TRUE]).
Proof.
  intros H. unfold Curl_addrinfo_callback, store_resolved.
  destruct (Z.eqb_spec CURL_ASYNC_SUCCESS st); [congruence |].
  reflexivity.
Qed.

(** X1. A lookup that failed: for a status other than success the callback
    returns [CURLE_OK]; it calls no collaborator and leaves their state as
    it was; it records the status, leaves no entry and sets the flag. *)
Theorem callback_lookup_failed st ai (w : world X) :
  st <> CURL_ASYNC_SUCCESS ->
  value (callback st ai w) = CURLE_OK /\
  log (callback st ai w) = [Store_status st; Store_dns NULL; Store_done TRUE] /\
  w_ext (final (callback st ai w)) = w_ext w /\
  async (w_conn (final (callback st ai w))) =
    mkAsync (hostname (async (w_conn w))) (port (async (w_conn w)))
      NULL TRUE st.
Proof.
  intros H. rewrite (callback_failure_run st ai w H). repeat split.
Qed.

(** A run with a success status and a list, in closed form: the store
    runs in the state the lock left, the release and the unlock follow. *)
Lemma callback_store_run ai (w : world X) :
  ai <> NULL ->
  callback CURL_ASYNC_SUCCESS ai w =
    (let d := stored ai w in
     let x1 := snd (store_call Curl_share_lock Curl_cache_addr ai w) in
     let x2 := if nonnull d then x1 else Curl_freeaddrinfo ai x1 in
     (if nonnull d then CURLE_OK else CURLE_OUT_OF_MEMORY,
      mkWorld (mkConn (mkAsync (hostname (async (w_conn w)))
                         (port (async (w_conn w))) d TRUE CURL_ASYNC_SUCCESS)
                 (dns_entry (w_conn w)))
        (w_share w)
        (if nonnull (w_share w) then Curl_share_unlock x2 else x2),
      Store_status CURL_ASYNC_SUCCESS :: store_events ai d w ++
      [Store_dns d; Store_done TRUE])).
Proof.
  intros Hai. apply nonnull_true in Hai.
  unfold Curl_addrinfo_callback, store_resolved, store_events, store_call,
    at_store, locked.
  change (CURL_ASYNC_SUCCESS =? CURL_ASYNC_SUCCESS) with true. cbv iota.
  rewrite Hai.
  destruct w as [[[h p d0 dn0 s0] de] sh x]; cbn [w_share w_conn w_ext].
  unfold bind, store_status, store_dns, store_done, store, load_share, load,
    when, call_, call, ret.
  cbn [w_share w_conn w_ext with_status hostname port async].
  destruct (nonnull sh) eqn:Hs;
    cbn [w_share w_conn w_ext with_status hostname port async];
    match goal with
    | |- context [Curl_cache_addr ai h p ?y] =>
        destruct (Curl_cache_addr ai h p y) as [d x']
    end;
    cbn [fst snd]; destruct (nonnull d); cbn; rewrite ?Hs; cbn; reflexivity.
Qed.

Lemma store_events_locks ai d (w : world X) :
  count is_lock (store_events ai d w) =
    (if nonnull (w_share w) then 1 else 0)%nat /\
  count is_unlock (store_events ai d w) =
    (if nonnull (w_share w) then 1 else 0)%nat /\
  occurs is_lock_op (store_events ai d w) = nonnull (w_share w) /\
  occurs is_cache_addr (store_events ai d w) = true.
Proof.
  unfold store_events, locked, occurs, count.
  destruct (nonnull (w_share w)), (nonnull d); repeat split.
Qed.

(** X2. The callback never returns with the share lock held.  Followed
    along the run, the lock is never taken while held nor released while
    free, and it is free at the end; every call of the cache store and of
    the release of the list is made with the lock held when the handle has
    a share, and free when it has none.  There are as many unlocks as
    locks, at most one of each, and the lock is taken exactly when the
    handle has a share and the store is called. *)
Theorem callback_lock_balanced st ai (w : world X) :
  lock_state false (log (callback st ai w)) = Some false /\
  stores_in_lock_state (nonnull (w_share w)) false (log (callback st ai w))
    = true /\
  count is_lock (log (callback st ai w)) =
    count is_unlock (log (callback st ai w)) /\
  (count is_lock (log (callback st ai w)) <= 1)%nat /\
  occurs is_lock_op (log (callback st ai w)) =
    nonnull (w_share w) && occurs is_cache_addr (log (callback st ai w)).
Proof.
  destruct (callback_cases st ai w)
    as [(_ & _ & _ & ->) | [(_ & _ & _ & _ & ->) | (_ & _ & _ & _ & ->)]].
  - rewrite andb_false_r. repeat split. cbn. lia.
  - rewrite andb_false_r. repeat split. cbn. lia.
  - destruct (store_events_locks ai (stored ai w) w) as (H1 & H2 & H3 & H4).
    split; [| split].
    + unfold store_events, locked.
      destruct (nonnull (w_share w)), (nonnull (stored ai w)); reflexivity.
    + unfold store_events, locked.
      destruct (nonnull (w_share w)), (nonnull (stored ai w)); reflexivity.
    + change (Store_status st :: ?l ++ ?m) with ([Store_status st] ++ l ++ m).
      rewrite !count_app, !occurs_app, H1, H2, H3, H4.
      destruct (nonnull (w_share w)); cbn; repeat split; lia.
Qed.

(** X3. With a share, the store and the release of the list both happen
    between the lock and the unlock, and the stores to the connection come
    after the unlock; the store runs on the state the lock left. *)
Theorem callback_store_under_lock ai (w : world X) :
  ai <> NULL ->
  w_share w <> NULL ->
  log (callback CURL_ASYNC_SUCCESS ai w) =
    [Store_status CURL_ASYNC_SUCCESS; Call_share_lock;
     Call_cache_addr ai (hostname (async (w_conn w)))
       (port (async (w_conn w))) (stored ai w)] ++
    (if nonnull (stored ai w) then [] else [Call_freeaddrinfo ai]) ++
    [Call_share_unlock; Store_dns (stored ai w); Store_done TRUE] /\
  stored ai w =
    fst (Curl_cache_addr ai (hostname (async (w_conn w)))
           (port (async (w_conn w))) (Curl_share_lock (w_ext w))).
Proof.
  intros Hai Hsh. apply nonnull_true in Hsh.
  rewrite (callback_store_run ai w Hai). unfold log. cbn [snd].
  unfold store_events, store_call, at_store, locked. rewrite Hsh.
  split; [| reflexivity].
  destruct (nonnull (fst (Curl_cache_addr _ _ _ _))); reflexivity.
Qed.

(** X4. The callback changes nothing of the connection but the three
    fields of the pending resolution: host name, port and the active
    entry [conn->dns_entry] are kept, and so is [data->share]. *)
Theorem callback_frame st ai (w : world X) :
  hostname (async (w_conn (final (callback st ai w)))) =
    hostname (async (w_conn w)) /\
  port (async (w_conn (final (callback st ai w)))) = port (async (w_conn w)) /\
  dns_entry (w_conn (final (callback st ai w))) = dns_entry (w_conn w) /\
  w_share (final (callback st ai w)) = w_share w.
Proof.
  destruct (Z.eq_dec st CURL_ASYNC_SUCCESS) as [-> | Hst].
  - destruct (Z.eq_dec ai NULL) as [-> | Hai].
    + repeat split.
    + rewrite (callback_store_run ai w Hai). repeat split.
  - rewrite (callback_failure_run st ai w Hst). repeat split.
Qed.

(** X5. A store that succeeds: the callback returns [CURLE_OK], the entry
    the store returned is the pending one, the list is not released, and
    the collaborators are left as the store (and the unlock) left them. *)
Theorem callback_store_success ai (w : world X) :
  ai <> NULL ->
  stored ai w <> NULL ->
  value (callback CURL_ASYNC_SUCCESS ai w) = CURLE_OK /\
  dns (async (w_conn (final (callback CURL_ASYNC_SUCCESS ai w)))) =
    stored ai w /\
  status (async (w_conn (final (callback CURL_ASYNC_SUCCESS ai w)))) =
    CURL_ASYNC_SUCCESS /\
  occurs is_freeaddrinfo (log (callback CURL_ASYNC_SUCCESS ai w)) = false /\
  w_ext (final (callback CURL_ASYNC_SUCCESS ai w)) =
    (if nonnull (w_share w)
     then Curl_share_unlock
            (snd (store_call Curl_share_lock Curl_cache_addr ai w))
     else snd (store_call Curl_share_lock Curl_cache_addr ai w)).
Proof.
  intros Hai Hd. apply nonnull_true in Hd.
  rewrite (callback_store_run ai w Hai). cbv zeta.
  unfold value, final, log. cbn [fst snd w_conn w_ext dns status async].
  rewrite Hd. repeat split.
  unfold store_events, locked. rewrite Hd.
  now destruct (nonnull (w_share w)).
Qed.

(** X6. The callback returns [CURLE_OK] or [CURLE_OUT_OF_MEMORY], and it
    returns [CURLE_OUT_OF_MEMORY] exactly when it was given a success status
    and leaves no entry. *)
Theorem callback_result_oom_iff st ai (w : world X) :
  (value (callback st ai w) = CURLE_OK \/
   value (callback st ai w) = CURLE_OUT_OF_MEMORY) /\
  (value (callback st ai w) = CURLE_OUT_OF_MEMORY <->
   st = CURL_ASYNC_SUCCESS /\
   dns (async (w_conn (final (callback st ai w)))) = NULL).
Proof.
  destruct (callback_cases st ai w)
    as [(Hst & -> & -> & _) | [(Hst & _ & -> & -> & _) | (Hst & _ & -> & -> & _)]].
  - split; [now left |]. split; [discriminate | tauto].
  - split; [now right |]. tauto.
  - destruct (nonnull (stored ai w)) eqn:E.
    + split; [now left |]. apply nonnull_spec in E.
      split; [discriminate | tauto].
    + split; [now right |]. apply nonnull_false in E. tauto.
Qed.

(** X7. The callback does not read what an earlier completion left: the
    result, the calls and the state it leaves are the same whatever the
    status, entry and flag of the pending resolution were before. *)
Theorem callback_overwrites st ai h p de sh (x : X) d1 dn1 s1 d2 dn2 s2 :
  Curl_addrinfo_callback Curl_share_lock Curl_share_unlock Curl_cache_addr
    Curl_freeaddrinfo st ai
    (mkWorld (mkConn (mkAsync h p d1 dn1 s1) de) sh x) =
  Curl_addrinfo_callback Curl_share_lock Curl_share_unlock Curl_cache_addr
    Curl_freeaddrinfo st ai
    (mkWorld (mkConn (mkAsync h p d2 dn2 s2) de) sh x).
Proof.
  destruct (Z.eq_dec st CURL_ASYNC_SUCCESS) as [-> | Hst].
  - destruct (Z.eq_dec ai NULL) as [-> | Hai].
    + reflexivity.
    + rewrite !(callback_store_run ai _ Hai). reflexivity.
  - rewrite !(callback_failure_run st ai _ Hst). reflexivity.
Qed.

End CallbackMore.

Lemma callback_lookup_failed_witness :
  4 <> CURL_ASYNC_SUCCESS /\
  value (Curl_addrinfo_callback Doubles.share_lock Doubles.share_unlock
           Doubles.cache_addr_ok Doubles.freeaddrinfo 4 4096
           Doubles.pending_shared) = CURLE_OK.
Proof.
  assert (H : 4 <> CURL_ASYNC_SUCCESS) by discriminate.
  split; [exact H |].
  exact (proj1 (callback_lookup_failed Doubles.share_lock Doubles.share_unlock
                  Doubles.cache_addr_ok Doubles.freeaddrinfo 4 4096
                  Doubles.pending_shared H)).
Defined.

Lemma callback_store_under_lock_witness :
  (4096 <> NULL /\ w_share Doubles.pending_shared <> NULL) /\
  log (Curl_addrinfo_callback Doubles.share_lock Doubles.share_unlock
         Doubles.cache_addr_fail Doubles.freeaddrinfo CURL_ASYNC_SUCCESS 4096
         Doubles.pending_shared) =
    [Store_status CURL_ASYNC_SUCCESS; Call_share_lock;
     Call_cache_addr 4096 "example.test" 80 NULL; Call_freeaddrinfo 4096;
     Call_share_unlock; Store_dns NULL; Store_done TRUE].
Proof.
  assert (H1 : 4096 <> NULL) by discriminate.
  assert (H2 : w_share Doubles.pending_shared <> NULL) by discriminate.
  split; [exact (conj H1 H2) |].
  exact (proj1 (callback_store_under_lock Doubles.share_lock
                  Doubles.share_unlock Doubles.cache_addr_fail
                  Doubles.freeaddrinfo 4096 Doubles.pending_shared H1 H2)).
Defined.

Lemma callback_store_success_witness :
  (4096 <> NULL /\
   fst (store_call Doubles.share_lock Doubles.cache_addr_ok 4096
          Doubles.pending) <> NULL) /\
  dns (async (w_conn (final
    (Curl_addrinfo_callback Doubles.share_lock Doubles.share_unlock
       Doubles.cache_addr_ok Doubles.freeaddrinfo CURL_ASYNC_SUCCESS 4096
       Doubles.pending)))) = 4097.
Proof.
  assert (H1 : 4096 <> NULL) by discriminate.
  assert (H2 : fst (store_call Doubles.share_lock Doubles.cache_addr_ok 4096
                      Doubles.pending) <> NULL) by discriminate.
  split; [exact (conj H1 H2) |].
  exact (proj1 (proj2 (callback_store_success Doubles.share_lock
                         Doubles.share_unlock Doubles.cache_addr_ok
                         Doubles.freeaddrinfo 4096 Doubles.pending H1 H2))).
Defined.

(** ** The resolution consumer *)

Section ConsumerMore.
Context {X : Type}.
Variable Curl_setup_conn :
  connectdata -> bool -> X -> CURLcode * connectdata * bool * X.
Variable Curl_disconnect : connectdata -> bool -> X -> X.

Local Abbreviation consumer :=
  (Curl_async_resolved Curl_setup_conn Curl_disconnect).
Local Abbreviation setup_from pd w :=
  (Curl_setup_conn (w_conn (final (claim_dns w))) pd (w_ext w)).

(** The state the consumer leaves. *)
Lemma async_resolved_state pd (w : world X) :
  w_share (final (consumer pd w)) = w_share w /\
  w_ext (final (consumer pd w)) =
    (if is_error (setup_result (setup_from pd w))
     then Curl_disconnect (setup_conn (setup_from pd w)) FALSE
            (snd (setup_from pd w))
     else snd (setup_from pd w)).
Proof.
  unfold Curl_async_resolved. rewrite bind_run, !claim_dns_run.
  unfold value, final, log. cbn [fst snd].
  unfold bind, call_setup_conn, when, call_disconnect, ret,
    setup_result, setup_conn.
  cbn [w_conn w_ext w_share].
  destruct (Curl_setup_conn _ pd (w_ext w)) as [[[res c] pd'] x].
  cbn [fst snd]. destruct (is_error res); cbn; auto.
Qed.

(** X8. With nothing to claim ([conn->async.dns] null) the consumer stores
    nothing: setup is handed the connection as it is, and the run is the
    call of setup, followed by the disconnect when setup failed. *)
Theorem async_resolved_nothing_to_claim pd (w : world X) :
  dns (async (w_conn w)) = NULL ->
  fst (value (consumer pd w)) =
    setup_result (Curl_setup_conn (w_conn w) pd (w_ext w)) /\
  log (consumer pd w) =
    Call_setup_conn (fst (value (consumer pd w)))
    :: (if is_error (fst (value (consumer pd w)))
        then [Call_disconnect FALSE] else []).
Proof.
  intros Hd.
  destruct (async_resolved_run Curl_setup_conn Curl_disconnect pd w)
    as (Hv & _ & Hl).
  rewrite Hl, Hv, (claim_dns_null w Hd). unfold final, log. cbn [fst snd app].
  split; reflexivity.
Qed.

(** X9. What the consumer hands back is setup's.  The value left in
    [*protocol_done] is the one setup left, and [data->share] is as it
    was.  When setup succeeded the connection is the one setup left and
    nothing ran after setup.  When setup failed, [Curl_disconnect] was
    applied to the connection as setup left it, with [dead_connection]
    false, in the state setup left; nothing is said of the connection
    after that. *)
Theorem async_resolved_hands_back_setup pd (w : world X) :
  snd (value (consumer pd w)) = setup_protocol_done (setup_from pd w) /\
  w_share (final (consumer pd w)) = w_share w /\
  if fst (value (consumer pd w)) =? CURLE_OK
  then w_conn (final (consumer pd w)) = setup_conn (setup_from pd w) /\
       w_ext (final (consumer pd w)) = snd (setup_from pd w)
  else w_ext (final (consumer pd w)) =
         Curl_disconnect (setup_conn (setup_from pd w)) FALSE
           (snd (setup_from pd w)).
Proof.
  destruct (async_resolved_run Curl_setup_conn Curl_disconnect pd w)
    as (Hv & Hc & _).
  destruct (async_resolved_state pd w) as (Hs & Hx).
  rewrite Hv, Hc, Hs, Hx. cbn [fst snd].
  split; [reflexivity | split; [reflexivity |]].
  unfold is_error, CURLE_OK. destruct (_ =? 0); cbn [negb]; auto.
Qed.

End ConsumerMore.

Lemma async_resolved_nothing_to_claim_witness :
  dns (async (w_conn Doubles.failed_lookup)) = NULL /\
  log (Curl_async_resolved Doubles.setup_fail Doubles.disconnect false
         Doubles.failed_lookup) =
    [Call_setup_conn 7; Call_disconnect FALSE].
Proof.
  assert (H : dns (async (w_conn Doubles.failed_lookup)) = NULL)
    by reflexivity.
  split; [exact H |].
  exact (proj2 (async_resolved_nothing_to_claim Doubles.setup_fail
                  Doubles.disconnect false Doubles.failed_lookup H)).
Defined.

(** ** From completion to setup *)

Section EndToEnd.
Context {X : Type}.
Variable Curl_share_lock : X -> X.
Variable Curl_share_unlock : X -> X.
Variable Curl_cache_addr : ptr -> string -> Z -> X -> ptr * X.
Variable Curl_freeaddrinfo : ptr -> X -> X.
Variable Curl_setup_conn :
  connectdata -> bool -> X -> CURLcode * connectdata * bool * X.
Variable Curl_disconnect : connectdata -> bool -> X -> X.

Local Abbreviation callback :=
  (Curl_addrinfo_callback Curl_share_lock Curl_share_unlock Curl_cache_addr
     Curl_freeaddrinfo).
Local Abbreviation consumer :=
  (Curl_async_resolved Curl_setup_conn Curl_disconnect).
Local Abbreviation stored ai w :=
  (fst (store_call Curl_share_lock Curl_cache_addr ai w)).

(** X10. The entry the cache returned reaches setup: after a completion
    whose store succeeded, the consumer hands [Curl_setup_conn] the
    connection with that entry in [conn->dns_entry], the pending reference
    null, the flag set and the success status, and returns setup's
    result. *)
Theorem stored_entry_reaches_setup ai pd (w : world X) :
  ai <> NULL ->
  stored ai w <> NULL ->
  w_conn (final (claim_dns (final (callback CURL_ASYNC_SUCCESS ai w)))) =
    mkConn (mkAsync (hostname (async (w_conn w))) (port (async (w_conn w)))
              NULL TRUE CURL_ASYNC_SUCCESS)
      (stored ai w) /\
  fst (value (consumer pd (final (callback CURL_ASYNC_SUCCESS ai w)))) =
    setup_result
      (Curl_setup_conn
         (w_conn (final (claim_dns (final (callback CURL_ASYNC_SUCCESS ai w)))))
         pd (w_ext (final (callback CURL_ASYNC_SUCCESS ai w)))) /\
  exists l,
    log (consumer pd (final (callback CURL_ASYNC_SUCCESS ai w))) =
      [Store_dns_entry (stored ai w); Store_dns NULL] ++
      Call_setup_conn
        (fst (value (consumer pd (final (callback CURL_ASYNC_SUCCESS ai w)))))
      :: l.
Proof.
  intros Hai Hd. apply nonnull_true in Hd.
  destruct (async_resolved_run Curl_setup_conn Curl_disconnect pd
              (final (callback CURL_ASYNC_SUCCESS ai w))) as (Hv & _ & Hl).
  rewrite Hl, Hv. cbn [fst]. clear Hv Hl.
  rewrite !claim_dns_run.
  rewrite (callback_store_run Curl_share_lock Curl_share_unlock
             Curl_cache_addr Curl_freeaddrinfo ai w Hai).
  cbv zeta. unfold final, log. cbn [fst snd w_conn w_ext dns async].
  rewrite Hd. cbn [with_dns with_dns_entry hostname port dns done status
                   async dns_entry].
  split; [reflexivity | split; [reflexivity |]].
  eexists. reflexivity.
Qed.

(** X11. An error from the callback does not stop the consumer: on the
    state a completion that did not return [CURLE_OK] left, the consumer
    still calls setup, once; it claims nothing, and setup is handed the
    connection with the active entry it had before the lookup. *)
Theorem callback_error_then_consumer st ai pd (w : world X) :
  value (callback st ai w) <> CURLE_OK ->
  count is_setup_conn (log (consumer pd (final (callback st ai w)))) = 1%nat /\
  occurs is_store_dns_entry (log (consumer pd (final (callback st ai w))))
    = false /\
  fst (value (consumer pd (final (callback st ai w)))) =
    setup_result
      (Curl_setup_conn (w_conn (final (callback st ai w))) pd
         (w_ext (final (callback st ai w)))) /\
  dns_entry (w_conn (final (callback st ai w))) = dns_entry (w_conn w).
Proof.
  intros Herr.
  assert (Hnull : dns (async (w_conn (final (callback st ai w)))) = NULL).
  { destruct (callback_cases Curl_share_lock Curl_share_unlock Curl_cache_addr
                Curl_freeaddrinfo st ai w)
      as [(_ & Hv & _) | [(_ & _ & _ & Hd & _) | (_ & _ & Hv & Hd & _)]].
    - contradiction.
    - exact Hd.
    - rewrite Hd. rewrite Hv in Herr.
      destruct (nonnull _) eqn:E; [contradiction | now apply nonnull_false]. }
  destruct (async_resolved_run Curl_setup_conn Curl_disconnect pd
              (final (callback st ai w))) as (Hv & _ & Hl).
  rewrite Hl, Hv, (claim_dns_null _ Hnull). unfold final at 1 2 3, log.
  cbn [fst snd app].
  split; [| split; [| split; [reflexivity |]]].
  - match goal with |- context [if ?b then _ else _] => destruct b end;
      reflexivity.
  - match goal with |- context [if ?b then _ else _] => destruct b end;
      reflexivity.
  - destruct (callback_run Curl_share_lock Curl_share_unlock Curl_cache_addr
                Curl_freeaddrinfo st ai w) as (_ & Hc & _).
    destruct (store_resolved_run Curl_share_lock Curl_share_unlock
                Curl_cache_addr Curl_freeaddrinfo st ai
                (mkWorld (with_status st (w_conn w)) (w_share w) (w_ext w)))
      as (Hc0 & _ & _).
    rewrite Hc, Hc0. reflexivity.
Qed.

End EndToEnd.

Lemma stored_entry_reaches_setup_witness :
  (4096 <> NULL /\
   fst (store_call Doubles.share_lock Doubles.cache_addr_ok 4096
          Doubles.pending_shared) <> NULL) /\
  dns_entry (w_conn (final (claim_dns (final
    (Curl_addrinfo_callback Doubles.share_lock Doubles.share_unlock
       Doubles.cache_addr_ok Doubles.freeaddrinfo CURL_ASYNC_SUCCESS 4096
       Doubles.pending_shared))))) = 4097.
Proof.
  assert (H1 : 4096 <> NULL) by discriminate.
  assert (H2 : fst (store_call Doubles.share_lock Doubles.cache_addr_ok 4096
                      Doubles.pending_shared) <> NULL) by discriminate.
  split; [exact (conj H1 H2) |].
  exact (f_equal dns_entry
           (proj1 (stored_entry_reaches_setup Doubles.share_lock
                     Doubles.share_unlock Doubles.cache_addr_ok
                     Doubles.freeaddrinfo Doubles.setup_ok Doubles.disconnect
                     4096 false Doubles.pending_shared H1 H2))).
Defined.

Lemma callback_error_then_consumer_witness :
  value (Curl_addrinfo_callback Doubles.share_lock Doubles.share_unlock
           Doubles.cache_addr_fail Doubles.freeaddrinfo CURL_ASYNC_SUCCESS
           4096 Doubles.pending) <> CURLE_OK /\
  count is_setup_conn
    (log (Curl_async_resolved Doubles.setup_ok Doubles.disconnect false
            (final (Curl_addrinfo_callback Doubles.share_lock
                      Doubles.share_unlock Doubles.cache_addr_fail
                      Doubles.freeaddrinfo CURL_ASYNC_SUCCESS 4096
                      Doubles.pending)))) = 1%nat.
Proof.
  assert (H : value (Curl_addrinfo_callback Doubles.share_lock
                       Doubles.share_unlock Doubles.cache_addr_fail
                       Doubles.freeaddrinfo CURL_ASYNC_SUCCESS 4096
                       Doubles.pending) <> CURLE_OK) by discriminate.
  split; [exact H |].
  exact (proj1 (callback_error_then_consumer Doubles.share_lock
                  Doubles.share_unlock Doubles.cache_addr_fail
                  Doubles.freeaddrinfo Doubles.setup_ok Doubles.disconnect
                  CURL_ASYNC_SUCCESS 4096 false Doubles.pending H)).
Defined.

(** ** The life of a resolver handle *)

Section ResolverMore.
Context {B O : Type}.
Variable calloc : gmap Z (Curl_resolver B O) -> ptr.
Variable get_addr_info :
  O -> CURL_handle -> string -> Z -> Z -> B -> ptr * Z * B.

Local Abbreviation create_with_userdata :=
  (Curl_resolver_create_with_userdata calloc).
Local Abbreviation destroy := (@Curl_resolver_destroy B O).
Local Abbreviation userdata_of := (@Curl_resolver_userdata B O).
Local Abbreviation getaddrinfo := (Curl_getaddrinfo get_addr_info).

(** Destroying an allocated handle, in closed form. *)
Lemma destroy_run r h cb (s : rstate B O) :
  r <> NULL ->
  heap s !! r = Some h ->
  callbacks h = Some cb ->
  destroy r s =
    Some (tt,
          mkRstate (delete r (heap s)) (cleanup cb (userdata h) (backend s)),
          [Call_cleanup (userdata h); Call_free r]).
Proof.
  intros Hr Hh Hcb. apply nonnull_true in Hr.
  unfold Curl_resolver_destroy, call_cleanup, call_free, deref, fault, rbind,
    rret.
  rewrite Hr, Hh, Hcb. cbn [heap backend]. reflexivity.
Qed.

(** Destroying anything else is a fault. *)
Lemma destroy_fault r (s : rstate B O) :
  r = NULL \/ heap s !! r = None \/
  (exists h, heap s !! r = Some h /\ callbacks h = None) ->
  destroy r s = None.
Proof.
  unfold Curl_resolver_destroy, call_cleanup, call_free, deref, fault, rbind,
    rret.
  intros [-> | [H | (h & H & Hcb)]].
  - reflexivity.
  - destruct (nonnull r); [| reflexivity]. now rewrite H.
  - destruct (nonnull r); [| reflexivity]. now rewrite H, Hcb.
Qed.

(** A run of [Curl_resolver_destroy] that returns started from an
    allocated handle with a table. *)
Lemma destroy_returns r (s : rstate B O) u s' l :
  destroy r s = Some (u, s', l) ->
  r <> NULL /\
  exists h cb, heap s !! r = Some h /\ callbacks h = Some cb.
Proof.
  intros H.
  destruct (Z.eq_dec r NULL) as [-> | Hr].
  { rewrite destroy_fault in H by auto. discriminate. }
  split; [exact Hr |].
  destruct (heap s !! r) as [h |] eqn:Hh.
  - destruct (callbacks h) as [cb |] eqn:Hcb; [eauto |].
    rewrite destroy_fault in H by eauto 6. discriminate.
  - rewrite destroy_fault in H by auto. discriminate.
Qed.

(** Creation with a successful [init], in closed form. *)
Lemma create_ok_run cb ud (s : rstate B O) :
  calloc (heap s) <> NULL ->
  init_code (init cb ud (backend s)) = CURLE_OK ->
  create_with_userdata cb ud s =
    Some (calloc (heap s),
          mkRstate (<[calloc (heap s) :=
                       mkResolver (init_userdata (init cb ud (backend s)))
                         (Some cb)]> (heap s))
            (init_backend (init cb ud (backend s))),
          [Call_calloc (calloc (heap s));
           Call_init ud CURLE_OK (init_userdata (init cb ud (backend s)))]).
Proof.
  intros Hp Hok.
  rewrite (create_with_userdata_run calloc cb ud s Hp).
  unfold init_code, init_userdata, init_backend in *.
  destruct (init cb ud (backend s)) as [[code ud'] b]. cbn [fst snd] in *.
  subst code. reflexivity.
Qed.

(** X12. Creation that succeeds: when the allocation and [init] succeed,
    the new handle is returned; it holds the table that was passed and the
    userdata [init] left, [init] was given the caller's userdata, no
    [cleanup] ran, and the handles allocated before are untouched. *)
Theorem create_with_userdata_success cb ud (s : rstate B O) :
  calloc (heap s) <> NULL ->
  init_code (init cb ud (backend s)) = CURLE_OK ->
  exists s',
    create_with_userdata cb ud s =
      Some (calloc (heap s), s',
            [Call_calloc (calloc (heap s));
             Call_init ud CURLE_OK (init_userdata (init cb ud (backend s)))]) /\
    heap s' !! calloc (heap s) =
      Some (mkResolver (init_userdata (init cb ud (backend s))) (Some cb)) /\
    (forall q, q <> calloc (heap s) -> heap s' !! q = heap s !! q) /\
    backend s' = init_backend (init cb ud (backend s)).
Proof.
  intros Hp Hok. rewrite (create_ok_run cb ud s Hp Hok).
  eexists. split; [reflexivity |]. cbn [heap backend].
  split; [apply lookup_insert_eq |]. split; [| reflexivity].
  intros q Hq. apply lookup_insert_ne. congruence.
Qed.

(** A failed allocation, in closed form. *)
Lemma create_null_fault cb ud (s : rstate B O) :
  calloc (heap s) = NULL -> create_with_userdata cb ud s = None.
Proof.
  intros Hp.
  unfold Curl_resolver_create_with_userdata, rbind, call_calloc,
    store_userdata, deref.
  rewrite Hp. reflexivity.
Qed.

(** X13. The allocation is not checked: when [calloc] returns null, both
    ways of creating a handle store through the null pointer, and the run
    is a fault instead of a null result. *)
Theorem create_calloc_failure cb ud (s : rstate B O) :
  calloc (heap s) = NULL ->
  create_with_userdata cb ud s = None /\
  Curl_resolver_create calloc cb s = None.
Proof.
  intros Hp. split.
  - exact (create_null_fault cb ud s Hp).
  - exact (create_null_fault cb 0 s Hp).
Qed.

(** X14. Whatever creation returns is never half made: a run that returns
    either returns null, after one [cleanup], and the handle it allocated
    is released; or it returns the handle it allocated, which holds the
    table that was passed, and no [cleanup] ran.  [init] ran once in
    both. *)
Theorem create_returns_whole cb ud (s : rstate B O) r s' l :
  create_with_userdata cb ud s = Some (r, s', l) ->
  count is_init l = 1%nat /\
  ((r = NULL /\ heap s' !! calloc (heap s) = None /\
    count is_cleanup l = 1%nat) \/
   (r <> NULL /\ r = calloc (heap s) /\
    (exists u, heap s' !! r = Some (mkResolver u (Some cb))) /\
    count is_cleanup l = 0%nat)).
Proof.
  intros H.
  destruct (Z.eq_dec (calloc (heap s)) NULL) as [Hp | Hp].
  { rewrite (create_null_fault cb ud s Hp) in H. discriminate. }
  rewrite (create_with_userdata_run calloc cb ud s Hp) in H.
  destruct (init cb ud (backend s)) as [[code ud'] b].
  destruct (negb (code =? CURLE_OK)); injection H as <- <- <-;
    cbn [heap]; (split; [reflexivity |]).
  - left. split; [reflexivity |]. split; [apply lookup_delete_eq | reflexivity].
  - right. split; [exact Hp |]. split; [reflexivity |].
    split; [| reflexivity]. eexists. apply lookup_insert_eq.
Qed.

(** X15. Destroying a handle: for an allocated handle with a table,
    [cleanup] is called once, on the handle's userdata, and then the
    handle is released; the other handles are untouched. *)
Theorem destroy_live r h cb (s : rstate B O) :
  r <> NULL ->
  heap s !! r = Some h ->
  callbacks h = Some cb ->
  exists s',
    destroy r s = Some (tt, s', [Call_cleanup (userdata h); Call_free r]) /\
    heap s' !! r = None /\
    (forall q, q <> r -> heap s' !! q = heap s !! q) /\
    backend s' = cleanup cb (userdata h) (backend s).
Proof.
  intros Hr Hh Hcb. rewrite (destroy_run r h cb s Hr Hh Hcb).
  eexists. split; [reflexivity |]. cbn [heap backend].
  split; [apply lookup_delete_eq |]. split; [| reflexivity].
  intros q Hq. apply lookup_delete_ne. congruence.
Qed.

(** X16. Destroying what is not a handle is a fault: a null pointer
    fails the [assert], a pointer that is not allocated is dangling, and
    a handle whose table was never filled has a null [cleanup]. *)
Theorem destroy_invalid r (s : rstate B O) :
  r = NULL \/ heap s !! r = None \/
  (exists h, heap s !! r = Some h /\ callbacks h = None) ->
  destroy r s = None.
Proof. apply destroy_fault. Qed.

(** X17. A handle cannot be destroyed twice, nor used after it was
    destroyed: after a run of [Curl_resolver_destroy] that returned, a
    second one on the same pointer is a fault, and so is reading its
    userdata. *)
Theorem destroy_twice r (s : rstate B O) u s' l :
  destroy r s = Some (u, s', l) ->
  destroy r s' = None /\
  userdata_of (Some (mkHandle r)) s' = None.
Proof.
  intros H.
  destruct (destroy_returns r s u s' l H) as (Hr & h & cb & Hh & Hcb).
  rewrite (destroy_run r h cb s Hr Hh Hcb) in H. injection H as _ <- _.
  assert (Hgone : delete r (heap s) !! r = None) by apply lookup_delete_eq.
  split.
  - apply destroy_fault. right; left. exact Hgone.
  - unfold Curl_resolver_userdata, assert_data, rbind, rret, deref, fault.
    cbn [resolver]. rewrite (nonnull_true r Hr). cbn [heap].
    rewrite Hgone. reflexivity.
Qed.

(** X18. Create, then destroy: with a fresh address from the allocator
    and a successful [init], destroying the handle that was created gives
    back the handles there were before; [init] and [cleanup] ran once
    each, [cleanup] on the userdata [init] left. *)
Theorem create_destroy_round_trip cb ud (s : rstate B O) :
  calloc (heap s) <> NULL ->
  heap s !! calloc (heap s) = None ->
  init_code (init cb ud (backend s)) = CURLE_OK ->
  exists s1 s2,
    create_with_userdata cb ud s =
      Some (calloc (heap s), s1,
            [Call_calloc (calloc (heap s));
             Call_init ud CURLE_OK (init_userdata (init cb ud (backend s)))]) /\
    destroy (calloc (heap s)) s1 =
      Some (tt, s2,
            [Call_cleanup (init_userdata (init cb ud (backend s)));
             Call_free (calloc (heap s))]) /\
    heap s2 = heap s /\
    backend s2 =
      cleanup cb (init_userdata (init cb ud (backend s)))
        (init_backend (init cb ud (backend s))).
Proof.
  intros Hp Hfresh Hok.
  eexists. eexists. split; [apply (create_ok_run cb ud s Hp Hok) |].
  split.
  - rewrite (destroy_run (calloc (heap s))
               (mkResolver (init_userdata (init cb ud (backend s))) (Some cb))
               cb);
      [reflexivity | exact Hp | apply lookup_insert_eq | reflexivity].
  - cbn [heap backend userdata]. split; [| reflexivity].
    now apply delete_insert_id.
Qed.

(** X19. Create, then read the userdata: on the handle a successful
    creation returned, [Curl_resolver_userdata] returns the userdata
    [init] left there, and changes nothing. *)
Theorem create_then_userdata cb ud (s : rstate B O) :
  calloc (heap s) <> NULL ->
  init_code (init cb ud (backend s)) = CURLE_OK ->
  exists s1 l,
    create_with_userdata cb ud s = Some (calloc (heap s), s1, l) /\
    userdata_of (Some (mkHandle (calloc (heap s)))) s1 =
      Some (init_userdata (init cb ud (backend s)), s1, []).
Proof.
  intros Hp Hok.
  eexists. eexists. split; [apply (create_ok_run cb ud s Hp Hok) |].
  unfold Curl_resolver_userdata, assert_data, rbind, rret, deref, fault.
  cbn [resolver]. rewrite (nonnull_true _ Hp). cbn [heap].
  rewrite lookup_insert_eq. reflexivity.
Qed.

(** X20. [Curl_resolver_userdata] on a bad argument: a null [data] and a
    null [data->resolver] fail the two [assert]s, and a resolver that is
    not allocated is a fault as well; on an allocated handle it returns
    the handle's userdata and changes nothing. *)
Theorem userdata_checks (s : rstate B O) :
  userdata_of None s = None /\
  (forall d, resolver d = NULL \/ heap s !! resolver d = None ->
             userdata_of (Some d) s = None) /\
  (forall d h, resolver d <> NULL -> heap s !! resolver d = Some h ->
               userdata_of (Some d) s = Some (userdata h, s, [])).
Proof.
  unfold Curl_resolver_userdata, assert_data, rbind, rret, deref, fault.
  split; [reflexivity |]. split.
  - intros d [-> | H]; [reflexivity |].
    destruct (nonnull (resolver d)); [| reflexivity]. now rewrite H.
  - intros d h Hr Hh. now rewrite (nonnull_true _ Hr), Hh.
Qed.

(** X21. A lookup goes to the backend the handle was created with: on the
    handle a successful creation returned, [Curl_getaddrinfo] calls the
    [get_addr_info] of the table that was passed to the creation, with
    [data], the host name, the port and [*waitp] it was given, in the
    backend state [init] left, and returns what that returns; the handles
    are untouched. *)
Theorem create_then_getaddrinfo cb ud host prt waitp (s : rstate B O) :
  calloc (heap s) <> NULL ->
  init_code (init cb ud (backend s)) = CURLE_OK ->
  exists s1 l,
    create_with_userdata cb ud s = Some (calloc (heap s), s1, l) /\
    getaddrinfo (Some (mkHandle (calloc (heap s)))) host prt waitp s1 =
      Some (fst (get_addr_info (other_ops cb) (mkHandle (calloc (heap s)))
                   host prt waitp (init_backend (init cb ud (backend s)))),
            mkRstate (heap s1)
              (snd (get_addr_info (other_ops cb) (mkHandle (calloc (heap s)))
                      host prt waitp (init_backend (init cb ud (backend s))))),
            []).
Proof.
  intros Hp Hok.
  eexists. eexists. split; [apply (create_ok_run cb ud s Hp Hok) |].
  unfold Curl_getaddrinfo, assert_data, rbind, rret, deref, fault.
  cbn [resolver]. rewrite (nonnull_true _ Hp). cbn [heap].
  rewrite lookup_insert_eq. cbn [callbacks backend heap other_ops].
  destruct (get_addr_info _ _ host prt waitp _) as [[ret wp] b].
  reflexivity.
Qed.

(** X22. [Curl_getaddrinfo] does not check the handle: with a null
    [conn->data], or a [data->resolver] that is null or not allocated, the
    lookup is a fault. *)
Theorem getaddrinfo_invalid host prt waitp (s : rstate B O) :
  getaddrinfo None host prt waitp s = None /\
  (forall d, resolver d = NULL \/ heap s !! resolver d = None ->
             getaddrinfo (Some d) host prt waitp s = None).
Proof.
  unfold Curl_getaddrinfo, assert_data, rbind, rret, deref, fault.
  split; [reflexivity |].
  intros d [-> | H]; [reflexivity |].
  destruct (nonnull (resolver d)); [| reflexivity]. now rewrite H.
Qed.

End ResolverMore.

Lemma create_with_userdata_success_witness :
  (Doubles.calloc_8192 (heap Doubles.empty_heap) <> NULL /\
   init_code (init (Doubles.counting_backend CURLE_OK) 77
                (backend Doubles.empty_heap)) = CURLE_OK) /\
  exists s',
    Curl_resolver_create_with_userdata Doubles.calloc_8192
      (Doubles.counting_backend CURLE_OK) 77 Doubles.empty_heap =
      Some (8192, s', [Call_calloc 8192; Call_init 77 CURLE_OK 12288]) /\
    backend s' = 1%nat.
Proof.
  assert (H1 : Doubles.calloc_8192 (heap Doubles.empty_heap) <> NULL)
    by discriminate.
  assert (H2 : init_code (init (Doubles.counting_backend CURLE_OK) 77
                            (backend Doubles.empty_heap)) = CURLE_OK)
    by reflexivity.
  split; [exact (conj H1 H2) |].
  destruct (create_with_userdata_success Doubles.calloc_8192
              (Doubles.counting_backend CURLE_OK) 77 Doubles.empty_heap H1 H2)
    as (s' & Hrun & _ & _ & Hb).
  exists s'. exact (conj Hrun Hb).
Defined.

Lemma create_calloc_failure_witness :
  UseDoubles.calloc_fails (heap Doubles.empty_heap) = NULL /\
  Curl_resolver_create UseDoubles.calloc_fails
    (Doubles.counting_backend CURLE_OK) Doubles.empty_heap = None.
Proof.
  assert (H : UseDoubles.calloc_fails (heap Doubles.empty_heap) = NULL)
    by reflexivity.
  split; [exact H |].
  exact (proj2 (create_calloc_failure UseDoubles.calloc_fails
                  (Doubles.counting_backend CURLE_OK) 0 Doubles.empty_heap H)).
Defined.

Lemma create_returns_whole_witness :
  Curl_resolver_create_with_userdata Doubles.calloc_8192
    (Doubles.counting_backend CURLE_OUT_OF_MEMORY) 77 Doubles.empty_heap =
    Some (NULL, mkRstate ∅ 0%nat,
          [Call_calloc 8192; Call_init 77 CURLE_OUT_OF_MEMORY 12288;
           Call_cleanup 12288; Call_free 8192]) /\
  count is_init
    [Call_calloc 8192; Call_init 77 CURLE_OUT_OF_MEMORY 12288;
     Call_cleanup 12288; Call_free 8192] = 1%nat.
Proof.
  assert (H : Curl_resolver_create_with_userdata Doubles.calloc_8192
                (Doubles.counting_backend CURLE_OUT_OF_MEMORY) 77
                Doubles.empty_heap =
              Some (NULL, mkRstate ∅ 0%nat,
                    [Call_calloc 8192; Call_init 77 CURLE_OUT_OF_MEMORY 12288;
                     Call_cleanup 12288; Call_free 8192]))
    by reflexivity.
  split; [exact H |].
  exact (proj1 (create_returns_whole Doubles.calloc_8192
                  (Doubles.counting_backend CURLE_OUT_OF_MEMORY) 77
                  Doubles.empty_heap _ _ _ H)).
Defined.

Lemma destroy_live_witness :
  (8192 <> NULL /\
   heap UseDoubles.one_handle !! 8192 =
     Some (mkResolver 12288 (Some (Doubles.counting_backend CURLE_OK)))) /\
  exists s',
    Curl_resolver_destroy 8192 UseDoubles.one_handle =
      Some (tt, s', [Call_cleanup 12288; Call_free 8192]) /\
    backend s' = 0%nat.
Proof.
  assert (H1 : 8192 <> NULL) by discriminate.
  assert (H2 : heap UseDoubles.one_handle !! 8192 =
               Some (mkResolver 12288
                       (Some (Doubles.counting_backend CURLE_OK))))
    by reflexivity.
  split; [exact (conj H1 H2) |].
  destruct (destroy_live 8192 _ (Doubles.counting_backend CURLE_OK)
              UseDoubles.one_handle H1 H2 eq_refl) as (s' & Hrun & _ & _ & Hb).
  exists s'. exact (conj Hrun Hb).
Defined.

Lemma destroy_invalid_witness :
  heap Doubles.empty_heap !! 8192 = None /\
  Curl_resolver_destroy 8192 Doubles.empty_heap = None.
Proof.
  assert (H : heap Doubles.empty_heap !! 8192 = None) by reflexivity.
  split; [exact H |].
  exact (destroy_invalid 8192 Doubles.empty_heap (or_intror (or_introl H))).
Defined.

Lemma destroy_twice_witness :
  Curl_resolver_destroy 8192 UseDoubles.one_handle =
    Some (tt, mkRstate ∅ 0%nat, [Call_cleanup 12288; Call_free 8192]) /\
  Curl_resolver_destroy 8192 (mkRstate ∅ 0%nat : rstate nat unit) = None.
Proof.
  assert (H : Curl_resolver_destroy 8192 UseDoubles.one_handle =
              Some (tt, mkRstate ∅ 0%nat,
                    [Call_cleanup 12288; Call_free 8192])) by reflexivity.
  split; [exact H |].
  exact (proj1 (destroy_twice 8192 UseDoubles.one_handle _ _ _ H)).
Defined.

Lemma create_destroy_round_trip_witness :
  (Doubles.calloc_8192 (heap Doubles.empty_heap) <> NULL /\
   heap Doubles.empty_heap !! Doubles.calloc_8192 (heap Doubles.empty_heap)
     = None /\
   init_code (init (Doubles.counting_backend CURLE_OK) 77
                (backend Doubles.empty_heap)) = CURLE_OK) /\
  exists s1 s2 : rstate nat unit,
    Curl_resolver_create_with_userdata Doubles.calloc_8192
      (Doubles.counting_backend CURLE_OK) 77 Doubles.empty_heap =
      Some (8192, s1, [Call_calloc 8192; Call_init 77 CURLE_OK 12288]) /\
    Curl_resolver_destroy 8192 s1 =
      Some (tt, s2, [Call_cleanup 12288; Call_free 8192]) /\
    heap s2 = heap Doubles.empty_heap /\
    backend s2 = 0%nat.
Proof.
  assert (H1 : Doubles.calloc_8192 (heap Doubles.empty_heap) <> NULL)
    by discriminate.
  assert (H2 : heap Doubles.empty_heap
                 !! Doubles.calloc_8192 (heap Doubles.empty_heap) = None)
    by reflexivity.
  assert (H3 : init_code (init (Doubles.counting_backend CURLE_OK) 77
                            (backend Doubles.empty_heap)) = CURLE_OK)
    by reflexivity.
  split; [exact (conj H1 (conj H2 H3)) |].
  destruct (create_destroy_round_trip Doubles.calloc_8192
              (Doubles.counting_backend CURLE_OK) 77 Doubles.empty_heap
              H1 H2 H3) as (s1 & s2 & Hc & Hd & Hh & Hb).
  exists s1, s2. exact (conj Hc (conj Hd (conj Hh Hb))).
Defined.

Lemma create_then_userdata_witness :
  (Doubles.calloc_8192 (heap Doubles.empty_heap) <> NULL /\
   init_code (init (Doubles.counting_backend CURLE_OK) 77
                (backend Doubles.empty_heap)) = CURLE_OK) /\
  exists s1 : rstate nat unit,
    (exists l,
        Curl_resolver_create_with_userdata Doubles.calloc_8192
          (Doubles.counting_backend CURLE_OK) 77 Doubles.empty_heap =
          Some (8192, s1, l)) /\
    Curl_resolver_userdata (Some (mkHandle 8192)) s1 = Some (12288, s1, []).
Proof.
  assert (H1 : Doubles.calloc_8192 (heap Doubles.empty_heap) <> NULL)
    by discriminate.
  assert (H2 : init_code (init (Doubles.counting_backend CURLE_OK) 77
                            (backend Doubles.empty_heap)) = CURLE_OK)
    by reflexivity.
  split; [exact (conj H1 H2) |].
  destruct (create_then_userdata Doubles.calloc_8192
              (Doubles.counting_backend CURLE_OK) 77 Doubles.empty_heap H1 H2)
    as (s1 & l & Hc & Hu).
  exists s1. exact (conj (ex_intro _ l Hc) Hu).
Defined.

Lemma create_then_getaddrinfo_witness :
  (Doubles.calloc_8192 (heap Doubles.empty_heap) <> NULL /\
   init_code (init (Doubles.counting_backend CURLE_OK) 77
                (backend Doubles.empty_heap)) = CURLE_OK) /\
  exists s1 : rstate nat unit,
    (exists l,
        Curl_resolver_create_with_userdata Doubles.calloc_8192
          (Doubles.counting_backend CURLE_OK) 77 Doubles.empty_heap =
          Some (8192, s1, l)) /\
    Curl_getaddrinfo UseDoubles.get_addr_info (Some (mkHandle 8192))
      "example.test" 80 0 s1 =
      Some ((4096, 1), mkRstate (heap s1) 1%nat, []).
Proof.
  assert (H1 : Doubles.calloc_8192 (heap Doubles.empty_heap) <> NULL)
    by discriminate.
  assert (H2 : init_code (init (Doubles.counting_backend CURLE_OK) 77
                            (backend Doubles.empty_heap)) = CURLE_OK)
    by reflexivity.
  split; [exact (conj H1 H2) |].
  destruct (create_then_getaddrinfo Doubles.calloc_8192
              UseDoubles.get_addr_info (Doubles.counting_backend CURLE_OK) 77
              "example.test" 80 0 Doubles.empty_heap H1 H2)
    as (s1 & l & Hc & Hg).
  exists s1. exact (conj (ex_intro _ l Hc) Hg).
Defined.

(** ** Ownership of the list, and the teardown *)

Section ListOwnership.
Context {X : Type}.
Variable Curl_share_lock : X -> X.
Variable Curl_share_unlock : X -> X.
Variable Curl_cache_addr : ptr -> string -> Z -> X -> ptr * X.
Variable Curl_freeaddrinfo : ptr -> X -> X.

Local Abbreviation callback :=
  (Curl_addrinfo_callback Curl_share_lock Curl_share_unlock Curl_cache_addr
     Curl_freeaddrinfo).
Local Abbreviation stored ai w :=
  (fst (store_call Curl_share_lock Curl_cache_addr ai w)).
Local Abbreviation after_store ai w :=
  (snd (store_call Curl_share_lock Curl_cache_addr ai w)).

(** C3. When the completion callback is given a success status and a
    list, exactly one of the two happens to that list: the store, called
    once, on this list with the host name and the port of the pending
    resolution, returns an entry, which becomes the pending one; or the
    store returns null and this list is passed to [Curl_freeaddrinfo]
    right after it.  No other store or release is made, and the
    collaborators are left as that store, the release when there is one,
    and the unlock under a share, leave them. *)
Theorem callback_stores_or_releases ai (w : world X) :
  ai <> NULL ->
  xorb (occurs is_cache_entry_created (log (callback CURL_ASYNC_SUCCESS ai w)))
       (occurs (is_freeaddrinfo_of ai) (log (callback CURL_ASYNC_SUCCESS ai w)))
    = true /\
  count is_cache_addr (log (callback CURL_ASYNC_SUCCESS ai w)) = 1%nat /\
  (count is_freeaddrinfo (log (callback CURL_ASYNC_SUCCESS ai w)) <= 1)%nat /\
  (exists l1 l2,
      log (callback CURL_ASYNC_SUCCESS ai w) =
        l1 ++
        Call_cache_addr ai (hostname (async (w_conn w)))
          (port (async (w_conn w))) (stored ai w)
        :: (if nonnull (stored ai w) then [] else [Call_freeaddrinfo ai])
        ++ l2 /\
      occurs is_cache_addr l1 = false /\ occurs is_freeaddrinfo l1 = false /\
      occurs is_cache_addr l2 = false /\ occurs is_freeaddrinfo l2 = false) /\
  dns (async (w_conn (final (callback CURL_ASYNC_SUCCESS ai w)))) =
    stored ai w /\
  w_ext (final (callback CURL_ASYNC_SUCCESS ai w)) =
    (if nonnull (w_share w) then Curl_share_unlock else fun x => x)
      (if nonnull (stored ai w) then after_store ai w
       else Curl_freeaddrinfo ai (after_store ai w)).
Proof.
  intros Hai.
  rewrite (callback_store_run Curl_share_lock Curl_share_unlock
             Curl_cache_addr Curl_freeaddrinfo ai w Hai).
  cbv zeta. unfold final, log. cbn [fst snd w_conn w_ext dns async].
  unfold store_events, locked.
  split; [| split; [| split; [| split; [| split; [reflexivity |]]]]].
  - destruct (nonnull (w_share w)), (nonnull (stored ai w)) eqn:Hd;
      unfold occurs; cbn -[nonnull]; rewrite ?Hd, ?Z.eqb_refl; reflexivity.
  - destruct (nonnull (w_share w)), (nonnull (stored ai w)); reflexivity.
  - destruct (nonnull (w_share w)), (nonnull (stored ai w)); cbn; lia.
  - exists (Store_status CURL_ASYNC_SUCCESS
              :: (if nonnull (w_share w) then [Call_share_lock] else [])).
    exists ((if nonnull (w_share w) then [Call_share_unlock] else [])
              ++ [Store_dns (stored ai w); Store_done TRUE]).
    destruct (nonnull (w_share w)), (nonnull (stored ai w)); repeat split.
  - destruct (nonnull (w_share w)); reflexivity.
Qed.

End ListOwnership.

Lemma callback_stores_or_releases_witness :
  4096 <> NULL /\
  xorb (occurs is_cache_entry_created
          (log (Curl_addrinfo_callback Doubles.share_lock Doubles.share_unlock
                  Doubles.cache_addr_ok Doubles.freeaddrinfo
                  CURL_ASYNC_SUCCESS 4096 Doubles.pending_shared)))
       (occurs (is_freeaddrinfo_of 4096)
          (log (Curl_addrinfo_callback Doubles.share_lock Doubles.share_unlock
                  Doubles.cache_addr_ok Doubles.freeaddrinfo
                  CURL_ASYNC_SUCCESS 4096 Doubles.pending_shared)))
    = true /\
  w_ext (final (Curl_addrinfo_callback Doubles.share_lock Doubles.share_unlock
                  Doubles.cache_addr_ok Doubles.freeaddrinfo
                  CURL_ASYNC_SUCCESS 4096 Doubles.pending_shared)) =
    [("example.test", 80, 4096)].
Proof.
  assert (H : 4096 <> NULL) by discriminate.
  split; [exact H |].
  pose proof (callback_stores_or_releases Doubles.share_lock
                Doubles.share_unlock Doubles.cache_addr_ok
                Doubles.freeaddrinfo 4096 Doubles.pending_shared H)
    as (Hx & _ & _ & _ & _ & He).
  exact (conj Hx He).
Defined.

Section Teardown.
Context {X : Type}.
Variable Curl_setup_conn :
  connectdata -> bool -> X -> CURLcode * connectdata * bool * X.
Variable Curl_disconnect : connectdata -> bool -> X -> X.

Local Abbreviation consumer :=
  (Curl_async_resolved Curl_setup_conn Curl_disconnect).
Local Abbreviation setup_from pd w :=
  (Curl_setup_conn (w_conn (final (claim_dns w))) pd (w_ext w)).

(** C7. The consumer returns what [Curl_setup_conn] returned.  When that
    is a failure, the call of [Curl_disconnect] follows the call of
    [Curl_setup_conn] and ends the run, and the collaborators are left as
    [Curl_disconnect] leaves them, applied with [dead_connection] false to
    the connection as setup left it, in the state setup left.  When it is
    [CURLE_OK], the run ends with the call of [Curl_setup_conn],
    [Curl_disconnect] is not called, and the connection and the
    collaborators are as setup left them. *)
Theorem async_resolved_teardown pd (w : world X) :
  fst (value (consumer pd w)) = setup_result (setup_from pd w) /\
  (exists pre,
      occurs is_setup_conn pre = false /\
      occurs is_disconnect pre = false /\
      log (consumer pd w) =
        pre ++ Call_setup_conn (fst (value (consumer pd w)))
            :: (if fst (value (consumer pd w)) =? CURLE_OK then []
                else [Call_disconnect FALSE])) /\
  if fst (value (consumer pd w)) =? CURLE_OK
  then w_conn (final (consumer pd w)) = setup_conn (setup_from pd w) /\
       w_ext (final (consumer pd w)) = snd (setup_from pd w)
  else w_ext (final (consumer pd w)) =
         Curl_disconnect (setup_conn (setup_from pd w)) FALSE
           (snd (setup_from pd w)).
Proof.
  destruct (async_resolved_run Curl_setup_conn Curl_disconnect pd w)
    as (Hv & Hc & Hl).
  destruct (async_resolved_state Curl_setup_conn Curl_disconnect pd w)
    as (_ & Hx).
  destruct (claim_dns_log_stores w) as (H1 & H2 & _).
  rewrite Hv, Hc, Hx. cbn [fst].
  split; [reflexivity | split].
  - exists (log (claim_dns w)). rewrite Hl. repeat split; trivial.
    unfold is_error, CURLE_OK. now destruct (_ =? 0).
  - unfold is_error, CURLE_OK. destruct (_ =? 0); cbn [negb]; auto.
Qed.

End Teardown.
